(** * ABAP Code Analyzer: the config endpoint and the client controller

    A shallow embedding of [server.js] (the [/api/config] handler) and of
    the event handlers of the [ABAPAnalyzer] component in [analyzer.js],
    followed by the properties of the specification they satisfy, and the
    inputs at which they depart from it.

    JavaScript values are modelled as far as the handlers inspect them:
    JSON values with IEEE doubles, [undefined] as the missing option, the
    truthiness test behind [||], [!] and [&&], and [String.endsWith].
    React state is one record; a handler is a function on that record which
    applies the handler's setter calls in order.  The network is an input:
    the way a [fetch] settles is given to the handler, and the requests it
    sends are returned next to the new state.

    [analyzer.js] calls [useEffect] and renders a [Server] icon without
    importing either; the model reads them as React's [useEffect] and an
    icon component. *)

From Stdlib Require Import Floats ZArith.
From stdpp Require Import base strings list gmap.

Set Warnings "-register-all".

Local Open Scope Z_scope.

(** ** JavaScript values *)

Module JS.

(** A value produced by [JSON.parse].  [JObj] lists the members in the
    order of the text. *)
Inductive json : Type :=
  | JNull
  | JBool (b : bool)
  | JNum (x : float)
  | JStr (s : string)
  | JArr (items : list json)
  | JObj (members : list (string * json)).

(** A JSON value or [undefined]. *)
Definition value : Type := option json.
Definition undefined : value := None.

(** ECMAScript ToBoolean: [null], [false], [+0], [-0], [NaN] and the empty
    string are falsy; arrays and objects are truthy. *)
Definition toBoolean (j : json) : bool :=
  match j with
  | JNull => false
  | JBool b => b
  | JNum x => negb (PrimFloat.is_zero x || PrimFloat.is_nan x)
  | JStr s => negb (String.eqb s "")
  | JArr _ => true
  | JObj _ => true
  end.

Definition truthy (v : value) : bool :=
  match v with
  | None => false
  | Some j => toBoolean j
  end.

(** [a || b]: [a] when it is truthy, [b] otherwise. *)
Definition or (a b : value) : value := if truthy a then a else b.

(** [a || d] where [d] is a literal, so the result is never [undefined]. *)
Definition or_lit (a : value) (d : json) : json :=
  match or a (Some d) with
  | Some j => j
  | None => d
  end.

(** Own property [k] of an object built from a member list.  When a name
    is repeated the last member wins, as in [JSON.parse]. *)
Fixpoint member (k : string) (ms : list (string * json)) : value :=
  match ms with
  | [] => None
  | (k', v) :: rest =>
      match member k rest with
      | Some w => Some w
      | None => if String.eqb k' k then Some v else None
      end
  end.

(** [j.k] for a property name [k] that no prototype defines (the four
    config fields).  Reading a property of [null] throws a TypeError,
    which is [None] here; booleans, numbers, strings and arrays have no
    such property. *)
Definition getProp (j : json) (k : string) : option value :=
  match j with
  | JNull => None
  | JObj ms => Some (member k ms)
  | _ => Some undefined
  end.

(** [s.endsWith(search)]: the last [length search] code units of [s] are
    [search]; false when [search] is longer than [s]. *)
Definition endsWith (s search : string) : bool :=
  let len := String.length s in
  let searchLength := String.length search in
  if (searchLength <=? len)%nat
  then String.eqb (String.substring (len - searchLength) searchLength s) search
  else false.

(** [arr.includes(x)] on an array of strings. *)
Definition includes (x : string) (arr : list string) : bool :=
  bool_decide (x ∈ arr).

(** The JSON value denoted by the text [JSON.stringify(j)]: the same
    value, except that [NaN] and the infinities are written as [null] and
    negative zero as [0], at every depth.  An object is read through
    [member], which the member-wise image preserves. *)
Fixpoint serialised (j : json) : json :=
  match j with
  | JNum x =>
      if PrimFloat.is_nan x || PrimFloat.is_infinity x then JNull
      else if PrimFloat.is_zero x then JNum PrimFloat.zero
      else JNum x
  | JArr items => JArr (List.map serialised items)
  | JObj members =>
      JObj (List.map (λ kv, let '(k, v) := kv in (k, serialised v)) members)
  | _ => j
  end.

(** What React accepts as a child [{j}]: strings and numbers are text,
    [null] and booleans are skipped, an array is its items in turn, and a
    plain object makes the render throw. *)
Fixpoint validChild (j : json) : bool :=
  match j with
  | JObj _ => false
  | JArr items => forallb validChild items
  | _ => true
  end.

(** An HTTP response as [fetch] resolves it.  [body] is how
    [response.json()] settles: the parsed value, or the message of the
    error it rejects with. *)
Record Response : Type := {
  status : Z;
  statusText : string;
  body : string + json
}.

(** [response.ok]: the status is in the range 200-299. *)
Definition ok (r : Response) : bool :=
  (200 <=? status r) && (status r <=? 299).

(** How [await fetch(...)] settles: it rejects with an error (network
    failure) carrying a message, or resolves with a response. *)
Inductive FetchOutcome : Type :=
  | Rejected (message : string)
  | Resolved (r : Response).

End JS.

Import JS.

(** ** server.js *)

Module Server.

(** [process.env.NAME]: the variable's string, or [undefined]. *)
Definition env_get (env : gmap string string) (name : string) : value :=
  JStr <$> (env !! name).

(** The object literal passed to [res.json]. *)
Definition config_object (env : gmap string string) : list (string * value) :=
  [ ("apiKey",
     or (or (env_get env "API_KEY") (env_get env "OPENAI_API_KEY"))
        (env_get env "ANTHROPIC_API_KEY"));
    ("apiProvider", or (env_get env "API_PROVIDER") (Some (JStr "anthropic")));
    ("modelName",
     or (env_get env "MODEL_NAME") (Some (JStr "claude-3-7-sonnet-20250219")));
    ("apiBaseUrl", or (env_get env "API_BASE_URL") (Some (JStr ""))) ].

(** [JSON.stringify] of an object leaves out the properties whose value is
    [undefined]. *)
Definition stringify_object (obj : list (string * value)) : json :=
  JObj (omap (λ kv, (λ j, (kv.1, j)) <$> kv.2) obj).

(** [app.get('/api/config', ...)]: status 200 and the serialised object. *)
Definition get_api_config (env : gmap string string) : Response :=
  {| status := 200;
     statusText := "OK";
     body := inr (stringify_object (config_object env)) |}.

End Server.

(** ** analyzer.js: the state of the component *)

Module Analyzer.

(** A [File] picked in the file input. *)
Record File : Type := {
  name : string;
  size : N;
  content : string
}.

(** [analysisSettings].  The four fields filled in from the config
    response hold whatever JSON value [config.field || default] yields. *)
Record Settings : Type := {
  agents : list string;
  model : json;
  outputFormat : string;
  apiKey : json;
  provider : json;
  apiBaseUrl : json
}.

(** The [useState] cells of the component.  [error] and [configError] are
    [null] ([None]) or a string; [analysisResults] is [null] ([JNull]) or
    the parsed body of the last successful analyze response. *)
Record State : Type := {
  files : list File;
  analysisSettings : Settings;
  isAnalyzing : bool;
  analysisResults : json;
  error : option string;
  expandedSections : list string;
  configLoaded : bool;
  configError : option string
}.

Definition initialSettings : Settings :=
  {| agents := ["functionality"; "technical"; "logic"; "context"];
     model := JStr "claude-3-7-sonnet-20250219";
     outputFormat := "json";
     apiKey := JStr "";
     provider := JStr "anthropic";
     apiBaseUrl := JStr "" |}.

Definition initialState : State :=
  {| files := [];
     analysisSettings := initialSettings;
     isAnalyzing := false;
     analysisResults := JNull;
     error := None;
     expandedSections := [];
     configLoaded := false;
     configError := None |}.

(** The setters returned by [useState]: each replaces one cell. *)
Definition setFiles (v : list File) (st : State) : State :=
  {| files := v;
     analysisSettings := analysisSettings st;
     isAnalyzing := isAnalyzing st;
     analysisResults := analysisResults st;
     error := error st;
     expandedSections := expandedSections st;
     configLoaded := configLoaded st;
     configError := configError st |}.

Definition setAnalysisSettings (v : Settings) (st : State) : State :=
  {| files := files st;
     analysisSettings := v;
     isAnalyzing := isAnalyzing st;
     analysisResults := analysisResults st;
     error := error st;
     expandedSections := expandedSections st;
     configLoaded := configLoaded st;
     configError := configError st |}.

Definition setIsAnalyzing (v : bool) (st : State) : State :=
  {| files := files st;
     analysisSettings := analysisSettings st;
     isAnalyzing := v;
     analysisResults := analysisResults st;
     error := error st;
     expandedSections := expandedSections st;
     configLoaded := configLoaded st;
     configError := configError st |}.

Definition setAnalysisResults (v : json) (st : State) : State :=
  {| files := files st;
     analysisSettings := analysisSettings st;
     isAnalyzing := isAnalyzing st;
     analysisResults := v;
     error := error st;
     expandedSections := expandedSections st;
     configLoaded := configLoaded st;
     configError := configError st |}.

Definition setError (v : option string) (st : State) : State :=
  {| files := files st;
     analysisSettings := analysisSettings st;
     isAnalyzing := isAnalyzing st;
     analysisResults := analysisResults st;
     error := v;
     expandedSections := expandedSections st;
     configLoaded := configLoaded st;
     configError := configError st |}.

Definition setConfigLoaded (v : bool) (st : State) : State :=
  {| files := files st;
     analysisSettings := analysisSettings st;
     isAnalyzing := isAnalyzing st;
     analysisResults := analysisResults st;
     error := error st;
     expandedSections := expandedSections st;
     configLoaded := v;
     configError := configError st |}.

Definition setConfigError (v : option string) (st : State) : State :=
  {| files := files st;
     analysisSettings := analysisSettings st;
     isAnalyzing := isAnalyzing st;
     analysisResults := analysisResults st;
     error := error st;
     expandedSections := expandedSections st;
     configLoaded := configLoaded st;
     configError := v |}.

(** ** fetchConfig *)

(** The updater passed to [setAnalysisSettings]: the spread of [prev] with
    four fields replaced.  [None] when reading a field of [config] throws. *)
Definition configUpdater (config : json) (prev : Settings) : option Settings :=
  k ← getProp config "apiKey";
  p ← getProp config "apiProvider";
  m ← getProp config "modelName";
  b ← getProp config "apiBaseUrl";
  Some {| agents := agents prev;
          model := or_lit m (JStr "claude-3-7-sonnet-20250219");
          outputFormat := outputFormat prev;
          apiKey := or_lit k (JStr "");
          provider := or_lit p (JStr "anthropic");
          apiBaseUrl := or_lit b (JStr "") |}.

(** The API key row evaluates
    [apiKey ? '********' + apiKey.slice(-4) : 'Not Configured']: a falsy
    key is not sliced, strings and arrays have a [slice] method, and on
    any other truthy key the call throws a TypeError. *)
Definition apiKeyRenders (apiKey : json) : bool :=
  match apiKey with
  | JStr _ | JArr _ => true
  | _ => negb (toBoolean apiKey)
  end.

(** The render of the configuration panel does not throw: the provider
    and the model are rendered as children, and the API key row is
    evaluated.  (Nothing else that is rendered depends on a value taken
    from a response, apart from the props of [AnalysisResultsViewer],
    which is not part of this file.) *)
Definition renders (settings : Settings) : bool :=
  validChild (provider settings)
  && validChild (model settings)
  && apiKeyRenders (apiKey settings).

(** [fetchConfig], given how the fetch of [/api/config] settles.  Every
    error of the [try] block ends in [setConfigError(err.message)].  The
    updater runs when React renders, outside the [try]: if it throws, or
    if the render of the new settings throws, the component is unmounted
    and there is no next state ([None]). *)
Definition fetchConfig (o : FetchOutcome) (st : State) : option State :=
  match o with
  | Rejected message => Some (setConfigError (Some message) st)
  | Resolved response =>
      if negb (ok response)
      then Some (setConfigError (Some "Failed to load configuration") st)
      else
        match body response with
        | inl message => Some (setConfigError (Some message) st)
        | inr config =>
            s ← configUpdater config (analysisSettings st);
            if renders s
            then Some (setConfigLoaded true (setAnalysisSettings s st))
            else None
        end
  end.

(** ** handleFileUpload and toggleAgent *)

(** The predicate of the [filter] call in [handleFileUpload]. *)
Definition isAbapFile (file : File) : bool :=
  endsWith (name file) ".abap" || endsWith (name file) ".ABAP".

Definition abapFiles (selectedFiles : list File) : list File :=
  List.filter isAbapFile selectedFiles.

Definition handleFileUpload (selectedFiles : list File) (st : State) : State :=
  if (List.length (abapFiles selectedFiles) =? 0)%nat
  then setError (Some "Please select ABAP files (.abap extension)") st
  else setError None (setFiles (files st ++ abapFiles selectedFiles) st).

Definition toggleAgentUpdater (agentId : string) (prev : Settings) : Settings :=
  {| agents :=
       if includes agentId (agents prev)
       then filter (λ id, id ≠ agentId) (agents prev)
       else agents prev ++ [agentId];
     model := model prev;
     outputFormat := outputFormat prev;
     apiKey := apiKey prev;
     provider := provider prev;
     apiBaseUrl := apiBaseUrl prev |}.

Definition toggleAgent (agentId : string) (st : State) : State :=
  setAnalysisSettings (toggleAgentUpdater agentId (analysisSettings st)) st.

(** ** runAnalysis *)

(** The JSON value denoted by the text [JSON.stringify(analysisSettings)]:
    the six properties in the order of the object literal. *)
Definition settingsJSON (settings : Settings) : json :=
  JObj [ ("agents", JArr (List.map JStr (agents settings)));
         ("model", serialised (model settings));
         ("outputFormat", JStr (outputFormat settings));
         ("apiKey", serialised (apiKey settings));
         ("provider", serialised (provider settings));
         ("apiBaseUrl", serialised (apiBaseUrl settings)) ].

(** A part of the multipart body: a file, or a text, kept as the JSON
    value it denotes. *)
Inductive FormPart : Type :=
  | FilePart (file : File)
  | SettingsPart (text : json).

(** The arguments of a [fetch] call. *)
Record Request : Type := {
  url : string;
  method : string;
  formData : list (string * FormPart)
}.

(** The request built at the start of the [try] block. *)
Definition analyzeRequest (st : State) : Request :=
  {| url := "http://localhost:5000/api/analyze";
     method := "POST";
     formData :=
       map (λ file, ("files", FilePart file)) (files st)
       ++ [("settings", SettingsPart (settingsJSON (analysisSettings st)))] |}.

(** [setIsAnalyzing(true); setError(null)]: the state React renders while
    the request is in flight. *)
Definition beginAnalysis (st : State) : State :=
  setError None (setIsAnalyzing true st).

(** The [try] block after the fetch has settled: the new state, or the
    [message] of the error thrown. *)
Definition tryBlock (o : FetchOutcome) (st : State) : string + State :=
  match o with
  | Rejected message => inl message
  | Resolved response =>
      if negb (ok response)
      then inl "Analysis failed"
      else
        match body response with
        | inl message => inl message
        | inr results => inr (setAnalysisResults results st)
        end
  end.

Definition catchBlock (message : string) (st : State) : State :=
  setError (Some ("Analysis failed: " +:+ message)) st.

Definition finallyBlock (st : State) : State :=
  setIsAnalyzing false st.

(** What [runAnalysis] does once the fetch has settled with [o]. *)
Definition settleAnalysis (o : FetchOutcome) (st : State) : State :=
  finallyBlock
    match tryBlock o st with
    | inr st' => st'
    | inl message => catchBlock message st
    end.

(** [runAnalysis] against a network [net] that settles each request: the
    state when the returned promise resolves, and the requests sent. *)
Definition runAnalysis (net : Request → FetchOutcome) (st : State)
  : State * list Request :=
  if (List.length (files st) =? 0)%nat
  then (setError (Some "Please upload at least one ABAP file") st, [])
  else if negb (toBoolean (apiKey (analysisSettings st)))
  then (setError (Some "Please provide an API key in settings") st, [])
  else
    let request := analyzeRequest st in
    (settleAnalysis (net request) (beginAnalysis st), [request]).

(** ** What the component renders *)

(** [{error && <div>...{error}...</div>}] *)
Definition errorShown (st : State) : bool :=
  match error st with
  | Some message => negb (String.eqb message "")
  | None => false
  end.

(** Whether [<AnalysisResultsViewer .../>] is rendered: the right operand
    of [{analysisResults && <AnalysisResultsViewer .../>}] is reached
    exactly when [analysisResults] is truthy. *)
Definition resultsShown (st : State) : bool :=
  toBoolean (analysisResults st).

(** What React puts on screen for a child expression. *)
Inductive View : Type :=
  | Nothing
  | Text (text : string)
  | Viewer (analysisResults : json).

(** [{analysisResults && <AnalysisResultsViewer .../>}]: the viewer for a
    truthy value; a falsy value is itself the child, and React renders
    the numbers [0] and [NaN] as text and skips [null], [false] and the
    empty string. *)
Definition renderResults (analysisResults : json) : View :=
  if toBoolean analysisResults then Viewer analysisResults
  else
    match analysisResults with
    | JNum x => Text (if PrimFloat.is_zero x then "0" else "NaN")
    | _ => Nothing
    end.

Definition resultsView (st : State) : View :=
  renderResults (analysisResults st).

(** Something of the results is on screen. *)
Definition resultsRendered (st : State) : bool :=
  match resultsView st with
  | Nothing => false
  | _ => true
  end.

(** The [disabled] attribute of the run button. *)
Definition runDisabled (st : State) : bool :=
  isAnalyzing st
  || (List.length (files st) =? 0)%nat
  || negb (toBoolean (apiKey (analysisSettings st))).

End Analyzer.

Import Analyzer.

(** ** The specification's vocabulary *)

Module Spec.

(** Lower-casing of the ASCII letters. *)
Definition lowerAscii (c : Ascii.ascii) : Ascii.ascii :=
  let n := Ascii.nat_of_ascii c in
  if ((65 <=? n) && (n <=? 90))%nat then Ascii.ascii_of_nat (n + 32) else c.

Fixpoint toLowerCase (s : string) : string :=
  match s with
  | EmptyString => EmptyString
  | String c rest => String (lowerAscii c) (toLowerCase rest)
  end.

(** The name has extension [.abap], compared case-insensitively. *)
Definition hasAbapExtension (file : File) : bool :=
  endsWith (toLowerCase (name file)) ".abap".

(** [sub] occurs in [s]. *)
Fixpoint contains (s sub : string) : bool :=
  String.prefix sub s
  || match s with
     | EmptyString => false
     | String _ rest => contains rest sub
     end.

(** The first variable that is present. *)
Fixpoint firstPresent (vars : list (option string)) : option string :=
  match vars with
  | [] => None
  | Some s :: _ => Some s
  | None :: rest => firstPresent rest
  end.

(** The config response as the specification describes it: an object
    with the four string fields, the key being the first present of the
    three variables, each of the others its variable or the default. *)
Definition configAsSpecified (env : gmap string string) (r : Response) : Prop :=
  ∃ ms key,
    body r = inr (JObj ms)
    ∧ member "apiKey" ms = Some (JStr key)
    ∧ (∀ s, firstPresent [env !! "API_KEY"; env !! "OPENAI_API_KEY";
                          env !! "ANTHROPIC_API_KEY"] = Some s → key = s)
    ∧ member "apiProvider" ms
      = Some (JStr (default "anthropic" (env !! "API_PROVIDER")))
    ∧ member "modelName" ms
      = Some (JStr (default "claude-3-7-sonnet-20250219" (env !! "MODEL_NAME")))
    ∧ member "apiBaseUrl" ms
      = Some (JStr (default "" (env !! "API_BASE_URL"))).

(** A config field as the specification describes it: taken as it is when
    present, the default [d] only when absent. *)
Definition presentOr (config : json) (k : string) (d : json) : json :=
  match getProp config k with
  | Some (Some v) => v
  | _ => d
  end.

(** The four states of the controller, read off what is rendered: the
    spinner while [isAnalyzing], else the error box when one is shown,
    else the results when something of them is on screen, else
    nothing. *)
Inductive Phase : Type := Idle | Analyzing | Success | Error.

Definition phase (st : State) : Phase :=
  if isAnalyzing st then Analyzing
  else if errorShown st then Error
  else if resultsRendered st then Success
  else Idle.

End Spec.

(** ** Auxiliary definitions for the statements *)

(** The variable is set to a non-empty string. *)
Definition nonEmpty (o : option string) : option string :=
  match o with
  | Some s => if String.eqb s "" then None else Some s
  | None => None
  end.

(** A config field as [fetchConfig] reads it: taken as it is when present
    and truthy, the default [d] when absent or falsy. *)
Definition truthyOr (config : json) (k : string) (d : json) : json :=
  match getProp config k with
  | Some (Some v) => if toBoolean v then v else d
  | _ => d
  end.

(** A value that the configuration panel can render in the place of any
    of the three settings it shows: a string, or something falsy, which
    the default replaces. *)
Definition stringOrFalsy (v : value) : bool :=
  match v with
  | Some (JStr _) => true
  | _ => negb (truthy v)
  end.

(** The field [k] of [config] can be read and is such a value. *)
Definition fieldRenders (config : json) (k : string) : bool :=
  match getProp config k with
  | Some v => stringOrFalsy v
  | None => false
  end.

(** [name] ends with the suffix [ext]. *)
Definition hasSuffix (ext name : string) : Prop :=
  ∃ stem, name = stem +:+ ext.

(** The two states agree on every cell but [error]. *)
Definition sameButError (st st' : State) : Prop :=
  files st' = files st
  ∧ analysisSettings st' = analysisSettings st
  ∧ isAnalyzing st' = isAnalyzing st
  ∧ analysisResults st' = analysisResults st
  ∧ expandedSections st' = expandedSections st
  ∧ configLoaded st' = configLoaded st
  ∧ configError st' = configError st.

(** The guards of [runAnalysis] pass: a file is present and the API key is
    truthy. *)
Definition canSubmit (st : State) : Prop :=
  files st ≠ [] ∧ toBoolean (apiKey (analysisSettings st)) = true.

(** Concrete states and networks for the examples below. *)

Definition zreport : File :=
  {| name := "zreport.abap"; size := 15; content := "REPORT zreport." |}.

Definition withKey (key : string) (s : Settings) : Settings :=
  {| agents := agents s;
     model := model s;
     outputFormat := outputFormat s;
     apiKey := JStr key;
     provider := provider s;
     apiBaseUrl := apiBaseUrl s |}.

(** One file uploaded, key configured, nothing analysed yet. *)
Definition readyState : State :=
  setFiles [zreport]
    (setAnalysisSettings (withKey "sk-1" initialSettings) initialState).

(** A network that settles every request the same way. *)
Definition always (o : FetchOutcome) : Request → FetchOutcome := λ _, o.

(** The same after a first analysis has returned results. *)
Definition analysedState : State :=
  setAnalysisResults (JObj [("summary", JStr "3 findings")]) readyState.

(** The same after a first analysis has failed. *)
Definition failedState : State :=
  setError (Some "Analysis failed: Failed to fetch") readyState.

Definition serverError : Response :=
  {| status := 500;
     statusText := "Internal Server Error";
     body := inr (JObj [("error", JStr "quota exceeded")]) |}.

Definition nullBody : Response :=
  {| status := 200; statusText := "OK"; body := inr JNull |}.

Definition notes : File :=
  {| name := "notes.txt"; size := 5; content := "to do" |}.

Definition zutil : File :=
  {| name := "ZUTIL.ABAP"; size := 14; content := "REPORT zutil." |}.

(** ** analyzer.js: the remaining handlers and what the view derives *)

Module Controls.

(** An entry of [availableAgents]. *)
Record Agent : Type := {
  id : string;
  label : string;
  description : string
}.

Definition availableAgents : list Agent :=
  [ {| id := "functionality"; label := "Functionality";
       description := "Analyzes business purpose and functional aspects" |};
    {| id := "technical"; label := "Technical";
       description := "Examines technical implementation details" |};
    {| id := "logic"; label := "Logic";
       description := "Extracts core logic and algorithm patterns" |};
    {| id := "context"; label := "Context";
       description := "Maintains relationships between code segments" |};
    {| id := "documentation"; label := "Documentation";
       description := "Analyzes code documentation quality" |};
    {| id := "security"; label := "Security";
       description := "Identifies security issues and best practices" |} ].

(** [arr.filter((x, i) => keep(x, i))], the indices counted from [i]. *)
Fixpoint filterIndexed {A : Type} (keep : A → nat → bool) (i : nat)
    (arr : list A) : list A :=
  match arr with
  | [] => []
  | x :: rest =>
      if keep x i
      then x :: filterIndexed keep (S i) rest
      else filterIndexed keep (S i) rest
  end.

(** [removeFile]: [setFiles(files.filter((_, i) => i !== index))]. *)
Definition removeFile (index : nat) (st : State) : State :=
  setFiles (filterIndexed (λ _ i, negb (i =? index)%nat) 0%nat (files st)) st.

(** The [Clear all] button: [setFiles([])]. *)
Definition clearAll (st : State) : State := setFiles [] st.

(** The [onChange] of the output-format select:
    [setAnalysisSettings(prev => ({ ...prev, outputFormat: e.target.value }))]. *)
Definition selectOutputFormat (v : string) (st : State) : State :=
  setAnalysisSettings
    {| agents := agents (analysisSettings st);
       model := model (analysisSettings st);
       outputFormat := v;
       apiKey := apiKey (analysisSettings st);
       provider := provider (analysisSettings st);
       apiBaseUrl := apiBaseUrl (analysisSettings st) |} st.

Definition setExpandedSections (v : list string) (st : State) : State :=
  {| files := files st;
     analysisSettings := analysisSettings st;
     isAnalyzing := isAnalyzing st;
     analysisResults := analysisResults st;
     error := error st;
     expandedSections := v;
     configLoaded := configLoaded st;
     configError := configError st |}.

(** A [Set] of strings is the list of its elements in insertion order.
    [add] does nothing for an element that is present; [delete] removes
    it. *)
Definition setAdd (x : string) (s : list string) : list string :=
  if includes x s then s else s ++ [x].

Definition setDelete (x : string) (s : list string) : list string :=
  filter (λ y, y ≠ x) s.

(** [toggleSection]: a copy of the set with [sectionName] deleted when it
    was there and added otherwise. *)
Definition toggleSection (sectionName : string) (st : State) : State :=
  let newExpanded := expandedSections st in
  setExpandedSections
    (if includes sectionName newExpanded
     then setDelete sectionName newExpanded
     else setAdd sectionName newExpanded) st.

(** [runAnalysis] up to its [await]: a guard message, or the state
    rendered while the request is in flight. *)
Definition startAnalysis (st : State) : State :=
  if (List.length (files st) =? 0)%nat
  then setError (Some "Please upload at least one ABAP file") st
  else if negb (toBoolean (apiKey (analysisSettings st)))
  then setError (Some "Please provide an API key in settings") st
  else beginAnalysis st.

(** [runAnalysis] on a network where a fetch may also never settle
    ([None]; there is no timeout): the state once [runAnalysis] has
    nothing more to do, which is the state rendered at the [await] for as
    long as the fetch is pending, and the requests sent. *)
Definition runAnalysisOn (net : Request → option FetchOutcome) (st : State)
  : State * list Request :=
  if (List.length (files st) =? 0)%nat
  then (setError (Some "Please upload at least one ABAP file") st, [])
  else if negb (toBoolean (apiKey (analysisSettings st)))
  then (setError (Some "Please provide an API key in settings") st, [])
  else
    let request := analyzeRequest st in
    (match net request with
     | Some o => settleAnalysis o (beginAnalysis st)
     | None => beginAnalysis st
     end, [request]).

(** [s.slice(start)] for an integer [start]: from [start], counted from
    the end when negative, to the end of [s]. *)
Definition slice (s : string) (start : Z) : string :=
  let len := Z.of_nat (String.length s) in
  let from := if start <? 0 then Z.max (len + start) 0 else Z.min start len in
  let span := Z.max (len - from) 0 in
  String.substring (Z.to_nat from) (Z.to_nat span) s.

(** The text of the [API Key:] row for a key that is a string:
    [apiKey ? '********' + apiKey.slice(-4) : 'Not Configured']. *)
Definition apiKeyText (apiKey : string) : string :=
  if negb (String.eqb apiKey "")
  then "********" +:+ slice apiKey (-4)
  else "Not Configured".

(** The text of the status badge in the configuration header. *)
Definition configBadge (st : State) : string :=
  if configLoaded st && toBoolean (apiKey (analysisSettings st))
  then "Environment Configuration Loaded"
  else "Waiting for Configuration...".

(** [{(files.length === 0 || !analysisSettings.apiKey) && ...}]: the box
    listing what is missing before an analysis can run. *)
Definition requirementsShown (st : State) : bool :=
  (List.length (files st) =? 0)%nat
  || negb (toBoolean (apiKey (analysisSettings st))).

(** The files and the settings carried by a request. *)
Definition requestFiles (req : Request) : list File :=
  omap (λ part, match part.2 with
                | FilePart file => Some file
                | SettingsPart _ => None
                end) (formData req).

Definition requestSettings (req : Request) : list json :=
  omap (λ part, match part.2 with
                | FilePart _ => None
                | SettingsPart text => Some text
                end) (formData req).

(** What can happen to the component: the config fetch settles, the user
    acts on a control, the analyze fetch settles. *)
Inductive Event : Type :=
  | ConfigSettled (o : FetchOutcome)
  | FilesSelected (selectedFiles : list File)
  | RemoveClicked (index : nat)
  | ClearAllClicked
  | AgentToggled (agentId : string)
  | OutputFormatSelected (v : string)
  | SectionToggled (sectionName : string)
  | RunClicked
  | AnalysisSettled (o : FetchOutcome).

(** The state after an event; [None] when the render fails, or when the
    view offers no such control: there is a checkbox for each entry of
    [availableAgents] only, and the select has the options [json] and
    [markdown] only. *)
Definition handle (ev : Event) (st : State) : option State :=
  match ev with
  | ConfigSettled o => fetchConfig o st
  | FilesSelected selectedFiles => Some (handleFileUpload selectedFiles st)
  | RemoveClicked index => Some (removeFile index st)
  | ClearAllClicked => Some (clearAll st)
  | AgentToggled agentId =>
      if bool_decide (agentId ∈ map id availableAgents)
      then Some (toggleAgent agentId st)
      else None
  | OutputFormatSelected v =>
      if bool_decide (v ∈ ["json"; "markdown"])
      then Some (selectOutputFormat v st)
      else None
  | SectionToggled sectionName => Some (toggleSection sectionName st)
  | RunClicked => Some (startAnalysis st)
  | AnalysisSettled o => Some (settleAnalysis o st)
  end.

(** The states the component can be in: the initial one, and those an
    event leads to.  Events are taken in any order, which covers every
    order the browser can deliver them in. *)
Inductive reachable : State → Prop :=
  | reachable_initial : reachable initialState
  | reachable_handle (ev : Event) (st st' : State) :
      reachable st → handle ev st = Some st' → reachable st'.

End Controls.

Import Controls.

(** Every uploaded file has a name ending in [.abap] or [.ABAP]. *)
Definition filesAreAbap (st : State) : Prop :=
  ∀ file, file ∈ files st →
    hasSuffix ".abap" (name file) ∨ hasSuffix ".ABAP" (name file).

(** A key variable of the environment is set to a non-empty string. *)
Definition keyInEnvironment (env : gmap string string) : Prop :=
  ∃ var key,
    var ∈ ["API_KEY"; "OPENAI_API_KEY"; "ANTHROPIC_API_KEY"]
    ∧ env !! var = Some key
    ∧ key ≠ "".

(** The first variable that is set to a non-empty string. *)
Fixpoint firstNonEmpty (vars : list (option string)) : option string :=
  match vars with
  | [] => None
  | var :: rest =>
      match nonEmpty var with
      | Some s => Some s
      | None => firstNonEmpty rest
      end
  end.

(** A session: the config arrives from a server that has [API_KEY] set,
    two files are picked, one of them an ABAP file, and the security
    agent is switched on. *)
Definition sessionEvents : list Event :=
  [ ConfigSettled (Resolved (Server.get_api_config {[ "API_KEY" := "sk-1" ]}));
    FilesSelected [notes; zreport];
    AgentToggled "security" ].

Definition sessionState : State :=
  toggleAgent "security"
    (handleFileUpload [notes; zreport]
       (setConfigLoaded true
          (setAnalysisSettings (withKey "sk-1" initialSettings)
             initialState))).

(** The states agree on every cell but [analysisSettings] and the two
    config cells. *)
Definition sameButConfig (st st' : State) : Prop :=
  files st' = files st
  ∧ isAnalyzing st' = isAnalyzing st
  ∧ analysisResults st' = analysisResults st
  ∧ error st' = error st
  ∧ expandedSections st' = expandedSections st
  ∧ agents (analysisSettings st') = agents (analysisSettings st)
  ∧ outputFormat (analysisSettings st') = outputFormat (analysisSettings st).

(** ** Facts about the JavaScript primitives *)

Section EndsWith.

Lemma substring_whole (s : string) :
  String.substring 0 (String.length s) s = s.
Proof. induction s as [|c s IH]; simpl; [done | by rewrite IH]. Qed.

Lemma substring_after_stem (stem ext : string) :
  String.substring (String.length stem) (String.length ext) (stem +:+ ext)
  = ext.
Proof.
  induction stem as [|c stem IH]; simpl.
  - apply substring_whole.
  - exact IH.
Qed.

Lemma substring_split_at (n : nat) (s : string) :
  (n ≤ String.length s)%nat →
  s = String.substring 0 n s
      +:+ String.substring n (String.length s - n) s.
Proof.
  revert n. induction s as [|c s IH]; intros [|n] Hn; simpl in *.
  - done.
  - lia.
  - by rewrite substring_whole.
  - transitivity
      (String c (String.substring 0 n s
                 +:+ String.substring n (String.length s - n) s));
      [f_equal; apply IH; lia | reflexivity].
Qed.

Lemma length_app_string (s t : string) :
  String.length (s +:+ t) = (String.length s + String.length t)%nat.
Proof.
  induction s as [|c s IH]; [done|].
  change (S (String.length (s +:+ t))
          = S (String.length s + String.length t)).
  by rewrite IH.
Qed.

(** [endsWith] decides being a suffix. *)
Lemma endsWith_hasSuffix (s ext : string) :
  endsWith s ext = true ↔ hasSuffix ext s.
Proof.
  unfold endsWith, hasSuffix. split.
  - destruct (Nat.leb_spec (String.length ext) (String.length s)) as [Hle|];
      [|done].
    intros Heq%String.eqb_eq.
    exists (String.substring 0 (String.length s - String.length ext) s).
    pose proof (substring_split_at
                  (String.length s - String.length ext) s) as Hsplit.
    replace (String.length s - (String.length s - String.length ext))%nat
      with (String.length ext) in Hsplit by lia.
    rewrite Heq in Hsplit. apply Hsplit. lia.
  - intros [stem ->]. rewrite length_app_string.
    destruct (Nat.leb_spec (String.length ext)
                (String.length stem + String.length ext)) as [_|]; [|lia].
    replace (String.length stem + String.length ext - String.length ext)%nat
      with (String.length stem) by lia.
    rewrite substring_after_stem. apply String.eqb_refl.
Qed.

End EndsWith.

(** ** The config endpoint *)

Section ConfigEndpoint.

Import Server.

Lemma or_env_literal (env : gmap string string) (name d : string) :
  or (env_get env name) (Some (JStr d))
  = Some (JStr (default d (nonEmpty (env !! name)))).
Proof.
  unfold or, env_get. by destruct (env !! name) as [[|c s]|].
Qed.

Lemma or_env_empty_literal (env : gmap string string) (name : string) :
  or (env_get env name) (Some (JStr ""))
  = Some (JStr (default "" (env !! name))).
Proof.
  unfold or, env_get. by destruct (env !! name) as [[|c s]|].
Qed.

(** C2, as the code has it: the handler always answers 200 with an
    object.  [apiKey] is the first of [API_KEY], [OPENAI_API_KEY],
    [ANTHROPIC_API_KEY] that is set to a non-empty string; when none is,
    it is the (empty) value of [ANTHROPIC_API_KEY] if that is set, and
    the field is missing from the object otherwise.  [apiProvider] and
    [modelName] are their variable when it is set and non-empty, the
    default otherwise; [apiBaseUrl] is its variable, or the empty string
    when absent. *)
Theorem get_api_config_first_nonempty (env : gmap string string) :
  get_api_config env =
  {| status := 200;
     statusText := "OK";
     body := inr (JObj (
       match nonEmpty (env !! "API_KEY"),
             nonEmpty (env !! "OPENAI_API_KEY"),
             env !! "ANTHROPIC_API_KEY" with
       | Some key, _, _ => [("apiKey", JStr key)]
       | None, Some key, _ => [("apiKey", JStr key)]
       | None, None, Some key => [("apiKey", JStr key)]
       | None, None, None => []
       end
       ++ [("apiProvider",
            JStr (default "anthropic" (nonEmpty (env !! "API_PROVIDER"))));
           ("modelName",
            JStr (default "claude-3-7-sonnet-20250219"
                    (nonEmpty (env !! "MODEL_NAME"))));
           ("apiBaseUrl", JStr (default "" (env !! "API_BASE_URL")))])) |}.
Proof.
  unfold get_api_config, config_object, stringify_object.
  rewrite or_env_empty_literal, !or_env_literal.
  unfold or, env_get.
  destruct (env !! "API_KEY") as [[|c1 s1]|];
    destruct (env !! "OPENAI_API_KEY") as [[|c2 s2]|];
    destruct (env !! "ANTHROPIC_API_KEY") as [[|c3 s3]|];
    reflexivity.
Qed.

(** C2 as stated fails when no key variable is set: the object then has
    no [apiKey] field at all, so it does not have the four fields. *)
Lemma get_api_config_no_key_no_field :
  body (get_api_config ∅)
  = inr (JObj [("apiProvider", JStr "anthropic");
               ("modelName", JStr "claude-3-7-sonnet-20250219");
               ("apiBaseUrl", JStr "")])
  ∧ ¬ Spec.configAsSpecified ∅ (get_api_config ∅).
Proof.
  split; [reflexivity|].
  intros (ms & key & Hbody & Hkey & _).
  vm_compute in Hbody. injection Hbody as <-.
  vm_compute in Hkey. discriminate Hkey.
Qed.

(** A variable that is present but empty does not win: the next one is
    taken, and the default replaces an empty [API_PROVIDER]. *)
Example get_api_config_empty_variable :
  get_api_config
    {[ "API_KEY" := ""; "OPENAI_API_KEY" := "sk-2"; "API_PROVIDER" := "" ]}
  = {| status := 200;
       statusText := "OK";
       body := inr (JObj [("apiKey", JStr "sk-2");
                          ("apiProvider", JStr "anthropic");
                          ("modelName", JStr "claude-3-7-sonnet-20250219");
                          ("apiBaseUrl", JStr "")]) |}.
Proof. vm_compute. reflexivity. Qed.

End ConfigEndpoint.

(** ** fetchConfig *)

Section FetchConfig.

Lemma or_lit_truthyOr (ms : list (string * json)) (k : string) (d : json) :
  or_lit (member k ms) d = truthyOr (JObj ms) k d.
Proof.
  unfold or_lit, or, truthyOr, getProp, truthy.
  destruct (member k ms) as [v|]; [|done]. by destruct (toBoolean v).
Qed.

(** Where the code and the specification agree on a field: when it is
    absent, and when it is present with a truthy value. *)
Lemma truthyOr_presentOr (config : json) (k : string) (d : json) :
  (∀ v, getProp config k = Some (Some v) → toBoolean v = true) →
  truthyOr config k d = Spec.presentOr config k d.
Proof.
  unfold truthyOr, Spec.presentOr. intros Hv.
  destruct (getProp config k) as [[v|]|]; [|done..].
  by rewrite (Hv v eq_refl).
Qed.

Lemma configUpdater_truthyOr (config : json) (prev : Settings) :
  config ≠ JNull →
  configUpdater config prev =
  Some {| agents := agents prev;
          model := truthyOr config "modelName"
                     (JStr "claude-3-7-sonnet-20250219");
          outputFormat := outputFormat prev;
          apiKey := truthyOr config "apiKey" (JStr "");
          provider := truthyOr config "apiProvider" (JStr "anthropic");
          apiBaseUrl := truthyOr config "apiBaseUrl" (JStr "") |}.
Proof.
  intros Hnull. destruct config as [|b|x|s|items|ms]; try reflexivity;
    [done|].
  unfold configUpdater. simpl. by rewrite !or_lit_truthyOr.
Qed.

Lemma truthyOr_string (config : json) (k d : string) :
  fieldRenders config k = true →
  ∃ s, truthyOr config k (JStr d) = JStr s.
Proof.
  unfold fieldRenders, truthyOr.
  destruct (getProp config k) as [[v|]|]; [| by exists d | done].
  destruct v as [|b|x|s|items|ms]; cbn [stringOrFalsy truthy];
    try (intros Hfalsy%negb_true_iff; rewrite Hfalsy; by exists d).
  intros _. destruct (toBoolean (JStr s)); by eexists.
Qed.

(** C4, as the code has it: whenever the component is still there after
    a successful config fetch, each of the four settings is the
    response's field when that field is present and truthy, and the
    default when the field is absent or falsy ([null], [false], [0],
    the empty string); the other settings and state cells keep their
    values and [configLoaded] becomes true.  The component is still
    there, in particular, whenever the fields [apiKey], [apiProvider]
    and [modelName] can be read and each is absent, falsy or a
    string. *)
Theorem fetchConfig_truthy_or_default
    (r : Response) (config : json) (st : State) :
  ok r = true →
  body r = inr config →
  let loaded :=
    setConfigLoaded true (setAnalysisSettings
      {| agents := agents (analysisSettings st);
         model := truthyOr config "modelName"
                    (JStr "claude-3-7-sonnet-20250219");
         outputFormat := outputFormat (analysisSettings st);
         apiKey := truthyOr config "apiKey" (JStr "");
         provider := truthyOr config "apiProvider" (JStr "anthropic");
         apiBaseUrl := truthyOr config "apiBaseUrl" (JStr "") |} st) in
  (∀ st', fetchConfig (Resolved r) st = Some st' → st' = loaded)
  ∧ (fieldRenders config "apiKey" = true →
     fieldRenders config "apiProvider" = true →
     fieldRenders config "modelName" = true →
     fetchConfig (Resolved r) st = Some loaded).
Proof.
  intros Hok Hbody loaded. unfold fetchConfig. rewrite Hok, Hbody.
  cbn [negb]. split.
  - intros st'.
    assert (config = JNull ∨ config ≠ JNull) as [->|Hnull]
      by (destruct config; by auto); [done|].
    rewrite (configUpdater_truthyOr config _ Hnull). cbn [mbind option_bind].
    destruct (renders _); [|done]. by intros [= <-].
  - intros Hkey Hprov Hmodel. subst loaded.
    assert (config ≠ JNull) as Hnull by (by intros ->).
    rewrite (configUpdater_truthyOr config _ Hnull). cbn [mbind option_bind].
    unfold renders. cbn [provider model apiKey].
    destruct (truthyOr_string config "apiKey" "" Hkey) as [k ->].
    destruct (truthyOr_string config "apiProvider" "anthropic" Hprov)
      as [p ->].
    destruct (truthyOr_string config "modelName"
                "claude-3-7-sonnet-20250219" Hmodel) as [m ->].
    reflexivity.
Qed.

(** The theorem at the response the server gives when only [API_KEY] is
    set. *)
Lemma fetchConfig_truthy_or_default_witness :
  let r := Server.get_api_config {[ "API_KEY" := "sk-1" ]} in
  let config := JObj [("apiKey", JStr "sk-1");
                      ("apiProvider", JStr "anthropic");
                      ("modelName", JStr "claude-3-7-sonnet-20250219");
                      ("apiBaseUrl", JStr "")] in
  ok r = true
  ∧ body r = inr config
  ∧ fieldRenders config "apiKey" = true
  ∧ fieldRenders config "apiProvider" = true
  ∧ fieldRenders config "modelName" = true
  ∧ fetchConfig (Resolved r) initialState =
      Some (setConfigLoaded true (setAnalysisSettings
        {| agents := agents initialSettings;
           model := truthyOr config "modelName"
                      (JStr "claude-3-7-sonnet-20250219");
           outputFormat := outputFormat initialSettings;
           apiKey := truthyOr config "apiKey" (JStr "");
           provider := truthyOr config "apiProvider" (JStr "anthropic");
           apiBaseUrl := truthyOr config "apiBaseUrl" (JStr "") |}
        initialState)).
Proof.
  intros r config. split; [reflexivity|]. split; [reflexivity|].
  split; [reflexivity|]. split; [reflexivity|]. split; [reflexivity|].
  apply (proj2 (fetchConfig_truthy_or_default r config initialState
                  eq_refl eq_refl)); reflexivity.
Defined.

(** C4 as stated fails for a field that is present but falsy: an
    [apiProvider] of [""] is replaced by the default. *)
Lemma fetchConfig_empty_provider_replaced :
  let config := JObj [("apiKey", JStr "sk-1");
                      ("apiProvider", JStr "");
                      ("modelName", JStr "model-1");
                      ("apiBaseUrl", JStr "")] in
  let r := {| status := 200; statusText := "OK"; body := inr config |} in
  ∃ st',
    fetchConfig (Resolved r) initialState = Some st'
    ∧ provider (analysisSettings st') = JStr "anthropic"
    ∧ Spec.presentOr config "apiProvider" (JStr "anthropic") = JStr ""
    ∧ provider (analysisSettings st')
      ≠ Spec.presentOr config "apiProvider" (JStr "anthropic").
Proof.
  intros config r. eexists. split; [reflexivity|].
  split; [reflexivity|]. split; [reflexivity|]. discriminate.
Qed.

End FetchConfig.

(** ** handleFileUpload *)

Section FileIntake.

Lemma isAbapFile_hasSuffix (file : File) :
  isAbapFile file = true
  ↔ hasSuffix ".abap" (name file) ∨ hasSuffix ".ABAP" (name file).
Proof.
  unfold isAbapFile.
  rewrite orb_true_iff, !endsWith_hasSuffix. done.
Qed.

Lemma elem_of_abapFiles (selectedFiles : list File) (file : File) :
  file ∈ abapFiles selectedFiles
  ↔ file ∈ selectedFiles
    ∧ (hasSuffix ".abap" (name file) ∨ hasSuffix ".ABAP" (name file)).
Proof.
  unfold abapFiles.
  rewrite !list_elem_of_In, filter_In, isAbapFile_hasSuffix. done.
Qed.

Lemma abapFiles_sublist (selectedFiles : list File) :
  abapFiles selectedFiles `sublist_of` selectedFiles.
Proof.
  induction selectedFiles as [|file rest IH]; simpl.
  - constructor.
  - destruct (isAbapFile file); by constructor.
Qed.

Lemma abapFiles_nil (selectedFiles : list File) :
  abapFiles selectedFiles = []
  ↔ ∀ file, file ∈ selectedFiles →
      ¬ (hasSuffix ".abap" (name file) ∨ hasSuffix ".ABAP" (name file)).
Proof.
  split.
  - intros Hnil file Hin Hsuf.
    assert (file ∈ abapFiles selectedFiles) as Hkept
      by (apply elem_of_abapFiles; done).
    rewrite Hnil in Hkept. by apply not_elem_of_nil in Hkept.
  - intros Hnone. destruct (abapFiles selectedFiles) as [|file kept] eqn:Hk;
      [done|].
    assert (file ∈ abapFiles selectedFiles) as Hkept
      by (rewrite Hk; left).
    apply elem_of_abapFiles in Hkept as [Hin Hsuf].
    by destruct (Hnone file Hin).
Qed.

Lemma handleFileUpload_cases (selectedFiles : list File) (st : State) :
  handleFileUpload selectedFiles st =
    match abapFiles selectedFiles with
    | [] => setError (Some "Please select ABAP files (.abap extension)") st
    | kept => setError None (setFiles (files st ++ kept) st)
    end.
Proof.
  unfold handleFileUpload. by destruct (abapFiles selectedFiles).
Qed.

(** C3, as the code has it: the intake keeps, in their order, exactly
    the selected files whose name ends with [.abap] or with [.ABAP]
    (these two spellings only) and drops every other file; when none is
    kept it sets the extension-error message, otherwise it appends the
    kept files and clears the message. *)
Theorem handleFileUpload_keeps_abap_suffixes
    (selectedFiles : list File) (st : State) :
  (∀ file,
     file ∈ abapFiles selectedFiles
     ↔ file ∈ selectedFiles
       ∧ (hasSuffix ".abap" (name file) ∨ hasSuffix ".ABAP" (name file)))
  ∧ abapFiles selectedFiles `sublist_of` selectedFiles
  ∧ handleFileUpload selectedFiles st =
      match abapFiles selectedFiles with
      | [] => setError (Some "Please select ABAP files (.abap extension)") st
      | kept => setError None (setFiles (files st ++ kept) st)
      end.
Proof.
  split; [intros file; apply elem_of_abapFiles|].
  split; [apply abapFiles_sublist | apply handleFileUpload_cases].
Qed.

(** C3 as stated fails on a mixed-case extension: [ZREPORT.Abap] has the
    extension [.abap] up to case, yet it is dropped and the error is
    shown. *)
Lemma handleFileUpload_mixed_case_dropped :
  let file :=
    {| name := "ZREPORT.Abap"; size := 15; content := "REPORT zreport." |} in
  Spec.hasAbapExtension file = true
  ∧ abapFiles [file] = []
  ∧ handleFileUpload [file] initialState
    = setError (Some "Please select ABAP files (.abap extension)") initialState.
Proof. intros file. by vm_compute. Qed.

(** C9: a selection without any name ending in [.abap] or [.ABAP]
    changes nothing but the error message; a selection with such a name
    appends exactly the files with such a name, in their order and as
    often as they are selected, after the files already uploaded, clears
    the error message and touches nothing else.  The appended files are
    given by any test that decides the two suffixes. *)
Theorem handleFileUpload_frame (selectedFiles : list File) (st : State) :
  ((∀ file, file ∈ selectedFiles →
      ¬ (hasSuffix ".abap" (name file) ∨ hasSuffix ".ABAP" (name file))) →
   files (handleFileUpload selectedFiles st) = files st
   ∧ error (handleFileUpload selectedFiles st)
     = Some "Please select ABAP files (.abap extension)"
   ∧ sameButError st (handleFileUpload selectedFiles st))
  ∧ ((∃ file, file ∈ selectedFiles
        ∧ (hasSuffix ".abap" (name file) ∨ hasSuffix ".ABAP" (name file))) →
     (∀ matches : File → bool,
        (∀ file, matches file = true
                 ↔ hasSuffix ".abap" (name file)
                   ∨ hasSuffix ".ABAP" (name file)) →
        files (handleFileUpload selectedFiles st)
        = files st ++ List.filter matches selectedFiles)
     ∧ error (handleFileUpload selectedFiles st) = None
     ∧ analysisSettings (handleFileUpload selectedFiles st) = analysisSettings st
     ∧ isAnalyzing (handleFileUpload selectedFiles st) = isAnalyzing st
     ∧ analysisResults (handleFileUpload selectedFiles st) = analysisResults st
     ∧ expandedSections (handleFileUpload selectedFiles st) = expandedSections st
     ∧ configLoaded (handleFileUpload selectedFiles st) = configLoaded st
     ∧ configError (handleFileUpload selectedFiles st) = configError st).
Proof.
  rewrite handleFileUpload_cases. split.
  - intros Hnone%abapFiles_nil. rewrite Hnone. by repeat split.
  - intros (file & Hin & Hsuf).
    assert (file ∈ abapFiles selectedFiles) as Hkept
      by (apply elem_of_abapFiles; done).
    split.
    + intros matches Hmatches.
      assert (List.filter matches selectedFiles = abapFiles selectedFiles)
        as ->.
      { apply List.filter_ext. intros f.
        pose proof (Hmatches f) as Hm.
        pose proof (isAbapFile_hasSuffix f) as Ha.
        destruct (matches f), (isAbapFile f); try done.
        - symmetry. by apply Ha, Hm.
        - by apply Hm, Ha. }
      destruct (abapFiles selectedFiles) as [|first kept];
        [by apply not_elem_of_nil in Hkept | done].
    + destruct (abapFiles selectedFiles) as [|first kept];
        [by apply not_elem_of_nil in Hkept|].
      by repeat split.
Qed.

End FileIntake.

(** ** toggleAgent *)

Section ToggleAgent.

Lemma includes_toggleAgentUpdater (agentId id : string) (prev : Settings) :
  includes id (agents (toggleAgentUpdater agentId prev))
  = xorb (bool_decide (id = agentId)) (includes id (agents prev)).
Proof.
  unfold toggleAgentUpdater, includes. simpl.
  destruct (decide (id = agentId)) as [->|Hne].
  - rewrite (bool_decide_eq_true_2 (agentId = agentId)) by done.
    destruct (decide (agentId ∈ agents prev)) as [Hin|Hout].
    + rewrite (bool_decide_eq_true_2 _ Hin). simpl.
      apply bool_decide_eq_false_2.
      rewrite list_elem_of_filter. by intros [? _].
    + rewrite (bool_decide_eq_false_2 _ Hout). simpl.
      apply bool_decide_eq_true_2.
      rewrite elem_of_app, list_elem_of_singleton. by right.
  - rewrite (bool_decide_eq_false_2 (id = agentId)) by done. simpl.
    apply bool_decide_ext.
    destruct (bool_decide (agentId ∈ agents prev)).
    + rewrite list_elem_of_filter. tauto.
    + rewrite elem_of_app, list_elem_of_singleton. tauto.
Qed.

(** C10: [toggleAgent] flips the membership of the given identifier and
    of no other, leaves every other settings field and state cell
    alone, and toggling the same identifier twice gives back the
    original membership of every agent. *)
Theorem toggleAgent_flips_exactly (agentId : string) (st : State) :
  let st1 := toggleAgent agentId st in
  let st2 := toggleAgent agentId st1 in
  (∀ id, includes id (agents (analysisSettings st1))
         = xorb (bool_decide (id = agentId))
                (includes id (agents (analysisSettings st))))
  ∧ (∀ id, includes id (agents (analysisSettings st2))
           = includes id (agents (analysisSettings st)))
  ∧ (model (analysisSettings st1) = model (analysisSettings st)
     ∧ outputFormat (analysisSettings st1) = outputFormat (analysisSettings st)
     ∧ apiKey (analysisSettings st1) = apiKey (analysisSettings st)
     ∧ provider (analysisSettings st1) = provider (analysisSettings st)
     ∧ apiBaseUrl (analysisSettings st1) = apiBaseUrl (analysisSettings st))
  ∧ (files st1 = files st
     ∧ isAnalyzing st1 = isAnalyzing st
     ∧ analysisResults st1 = analysisResults st
     ∧ error st1 = error st
     ∧ expandedSections st1 = expandedSections st
     ∧ configLoaded st1 = configLoaded st
     ∧ configError st1 = configError st).
Proof.
  intros st1 st2. split; [|split; [|by repeat split]].
  - intros id. apply includes_toggleAgentUpdater.
  - intros id. unfold st2, st1, toggleAgent.
    cbn [analysisSettings setAnalysisSettings].
    rewrite !includes_toggleAgentUpdater.
    by destruct (bool_decide (id = agentId)), (includes id _).
Qed.

Example toggleAgent_security :
  agents (analysisSettings (toggleAgent "security" initialState))
  = ["functionality"; "technical"; "logic"; "context"; "security"]
  ∧ agents (analysisSettings (toggleAgent "logic" initialState))
    = ["functionality"; "technical"; "context"]
  ∧ agents (analysisSettings
              (toggleAgent "logic" (toggleAgent "logic" initialState)))
    = ["functionality"; "technical"; "context"; "logic"].
Proof. by vm_compute. Qed.

End ToggleAgent.

(** ** runAnalysis: the two guards *)

Section Guards.

Variable net : Request → FetchOutcome.

(** C5: with no file uploaded and an API key configured, [runAnalysis]
    sends no request and only sets the no-file message. *)
Theorem runAnalysis_no_file (st : State) :
  files st = [] →
  toBoolean (apiKey (analysisSettings st)) = true →
  ∃ st',
    runAnalysis net st = (st', [])
    ∧ error st' = Some "Please upload at least one ABAP file"
    ∧ sameButError st st'.
Proof.
  intros Hfiles _. unfold runAnalysis. rewrite Hfiles. simpl.
  eexists. split; [reflexivity|]. by repeat split.
Qed.

(** C6: with a file uploaded and no API key, [runAnalysis] sends no
    request and only sets the missing-key message. *)
Theorem runAnalysis_no_api_key (st : State) :
  files st ≠ [] →
  toBoolean (apiKey (analysisSettings st)) = false →
  ∃ st',
    runAnalysis net st = (st', [])
    ∧ error st' = Some "Please provide an API key in settings"
    ∧ sameButError st st'.
Proof.
  intros Hfiles Hkey. unfold runAnalysis. rewrite Hkey.
  destruct (files st) as [|file rest]; [done|]. simpl.
  eexists. split; [reflexivity|]. by repeat split.
Qed.

(** When both guards pass the request is sent, once. *)
Lemma runAnalysis_submitted (st : State) :
  canSubmit st →
  runAnalysis net st
  = (settleAnalysis (net (analyzeRequest st)) (beginAnalysis st),
     [analyzeRequest st]).
Proof.
  intros [Hfiles Hkey]. unfold runAnalysis. rewrite Hkey.
  by destruct (files st) as [|file rest].
Qed.

End Guards.

Section GuardWitnesses.

Lemma runAnalysis_no_file_witness :
  let st := setAnalysisSettings (withKey "sk-1" initialSettings) initialState in
  files st = []
  ∧ toBoolean (apiKey (analysisSettings st)) = true
  ∧ ∃ st',
      runAnalysis (always (Rejected "Failed to fetch")) st = (st', [])
      ∧ error st' = Some "Please upload at least one ABAP file"
      ∧ sameButError st st'.
Proof.
  intros st. split; [reflexivity|]. split; [reflexivity|].
  apply (runAnalysis_no_file (always (Rejected "Failed to fetch")) st);
    reflexivity.
Defined.

Lemma runAnalysis_no_api_key_witness :
  let st := setFiles [zreport] initialState in
  files st ≠ []
  ∧ toBoolean (apiKey (analysisSettings st)) = false
  ∧ ∃ st',
      runAnalysis (always (Rejected "Failed to fetch")) st = (st', [])
      ∧ error st' = Some "Please provide an API key in settings"
      ∧ sameButError st st'.
Proof.
  intros st. split; [discriminate|]. split; [reflexivity|].
  apply (runAnalysis_no_api_key (always (Rejected "Failed to fetch")) st);
    [discriminate | reflexivity].
Defined.

End GuardWitnesses.

(** ** runAnalysis: the response *)

Section Responses.

Variable net : Request → FetchOutcome.
Variable st : State.
Hypothesis Hsubmit : canSubmit st.

(** While the request is in flight the spinner is rendered. *)
Lemma beginAnalysis_analyzing :
  Spec.phase (beginAnalysis st) = Spec.Analyzing
  ∧ isAnalyzing (beginAnalysis st) = true
  ∧ error (beginAnalysis st) = None.
Proof. done. Qed.

(** Every thrown error ends in the error box, with the results cell
    untouched. *)
Lemma settleAnalysis_thrown (o : FetchOutcome) (message : string) :
  tryBlock o (beginAnalysis st) = inl message →
  settleAnalysis o (beginAnalysis st)
  = setIsAnalyzing false
      (setError (Some ("Analysis failed: " +:+ message)) (beginAnalysis st)).
Proof. intros Hthrow. unfold settleAnalysis. by rewrite Hthrow. Qed.

Lemma settleAnalysis_returned (o : FetchOutcome) (results : json) :
  tryBlock o (beginAnalysis st)
  = inr (setAnalysisResults results (beginAnalysis st)) →
  settleAnalysis o (beginAnalysis st)
  = setIsAnalyzing false (setAnalysisResults results (beginAnalysis st)).
Proof. intros Hret. unfold settleAnalysis. by rewrite Hret. Qed.

(** C1, as the code has it: after a non-2xx response [runAnalysis] ends
    with [isAnalyzing] false and the error box showing the fixed text
    [Analysis failed: Analysis failed], whatever the status and body of
    the response; the results cell keeps its value, so results of an
    earlier analysis stay on screen. *)
Theorem runAnalysis_non_2xx (r : Response) :
  net (analyzeRequest st) = Resolved r →
  ok r = false →
  ∃ st',
    runAnalysis net st = (st', [analyzeRequest st])
    ∧ error st' = Some "Analysis failed: Analysis failed"
    ∧ errorShown st' = true
    ∧ isAnalyzing st' = false
    ∧ Spec.phase st' = Spec.Error
    ∧ analysisResults st' = analysisResults st
    ∧ resultsShown st' = resultsShown st
    ∧ files st' = files st
    ∧ analysisSettings st' = analysisSettings st.
Proof.
  intros Hnet Hok. rewrite (runAnalysis_submitted net st Hsubmit), Hnet.
  eexists. split; [reflexivity|].
  rewrite (settleAnalysis_thrown _ "Analysis failed")
    by (simpl; by rewrite Hok).
  by repeat split.
Qed.

Lemma renderResults_nothing (results : json) :
  renderResults results = Nothing
  ↔ results = JNull ∨ results = JBool false ∨ results = JStr "".
Proof.
  unfold renderResults. split.
  - destruct results as [|[]|x|[|c s]|items|ms]; simpl; try done; auto.
    by destruct (negb _).
  - by intros [->|[->| ->]].
Qed.

Lemma phase_returned (results : json) :
  Spec.phase (setIsAnalyzing false
                (setAnalysisResults results (beginAnalysis st)))
  = match renderResults results with
    | Nothing => Spec.Idle
    | _ => Spec.Success
    end.
Proof.
  unfold Spec.phase, resultsRendered, resultsView. simpl.
  by destruct (renderResults results).
Qed.

(** C7, as the code has it: after a 2xx response with a parseable body
    [runAnalysis] ends with that JSON in the results cell, the error
    cleared and [isAnalyzing] false.  The results are on screen, and the
    controller in the success state, exactly when the JSON is not
    [null], [false] or the empty string: the viewer is rendered when
    the JSON is truthy, and the bare text [0] when it is the number
    zero. *)
Theorem runAnalysis_2xx_json (r : Response) (results : json) :
  net (analyzeRequest st) = Resolved r →
  ok r = true →
  body r = inr results →
  ∃ st',
    runAnalysis net st = (st', [analyzeRequest st])
    ∧ analysisResults st' = results
    ∧ error st' = None
    ∧ errorShown st' = false
    ∧ isAnalyzing st' = false
    ∧ resultsShown st' = toBoolean results
    ∧ (toBoolean results = true → resultsView st' = Viewer results)
    ∧ (∀ x, results = JNum x → PrimFloat.is_zero x = true →
         resultsView st' = Text "0")
    ∧ (resultsView st' = Nothing
       ↔ results = JNull ∨ results = JBool false ∨ results = JStr "")
    ∧ Spec.phase st'
      = match resultsView st' with
        | Nothing => Spec.Idle
        | _ => Spec.Success
        end
    ∧ files st' = files st
    ∧ analysisSettings st' = analysisSettings st.
Proof.
  intros Hnet Hok Hbody.
  rewrite (runAnalysis_submitted net st Hsubmit), Hnet.
  eexists. split; [reflexivity|].
  rewrite (settleAnalysis_returned _ results)
    by (simpl; by rewrite Hok, Hbody).
  rewrite phase_returned. unfold resultsView.
  cbn [analysisResults setIsAnalyzing setAnalysisResults].
  repeat split; try done.
  - intros Htruthy. unfold renderResults. by rewrite Htruthy.
  - intros x -> Hzero. unfold renderResults. simpl. by rewrite Hzero.
  - apply renderResults_nothing.
  - apply renderResults_nothing.
Qed.

End Responses.

(** ** runAnalysis as a state machine *)

Section StateMachine.

Variable net : Request → option FetchOutcome.
Variable st : State.
Hypothesis Hsubmit : canSubmit st.

Lemma runAnalysisOn_submitted :
  runAnalysisOn net st
  = (match net (analyzeRequest st) with
     | Some o => settleAnalysis o (beginAnalysis st)
     | None => beginAnalysis st
     end, [analyzeRequest st]).
Proof.
  destruct Hsubmit as [Hfiles Hkey]. unfold runAnalysisOn. rewrite Hkey.
  by destruct (files st) as [|file rest].
Qed.

(** C8, as the code has it: a submit that passes the guards renders the
    analyzing state and sends one request, and the controller stays in
    that state for as long as the fetch is pending.  Once the fetch
    settles [runAnalysis] completes, and in every outcome [isAnalyzing]
    is false again, so the controller is not left in the analyzing
    state: a rejected fetch, a non-2xx response and a body that does not
    parse end in the error state; a 2xx response with a parseable body
    ends in the success state when the JSON is on screen (the viewer for
    a truthy value, the text of a falsy number), and in the idle state,
    with nothing on screen, when the JSON is [null], [false] or the
    empty string. *)
Theorem runAnalysis_state_machine :
  Spec.phase (beginAnalysis st) = Spec.Analyzing
  ∧ ∃ st',
      runAnalysisOn net st = (st', [analyzeRequest st])
      ∧ match net (analyzeRequest st) with
        | None => st' = beginAnalysis st
        | Some o =>
            runAnalysis (always o) st = (st', [analyzeRequest st])
            ∧ isAnalyzing st' = false
            ∧ Spec.phase st' ≠ Spec.Analyzing
            ∧ match o with
              | Rejected message =>
                  Spec.phase st' = Spec.Error
                  ∧ error st' = Some ("Analysis failed: " +:+ message)
              | Resolved r =>
                  if ok r then
                    match body r with
                    | inl message =>
                        Spec.phase st' = Spec.Error
                        ∧ error st' = Some ("Analysis failed: " +:+ message)
                    | inr results =>
                        Spec.phase st'
                        = match resultsView st' with
                          | Nothing => Spec.Idle
                          | _ => Spec.Success
                          end
                        ∧ resultsView st' = renderResults results
                        ∧ (resultsView st' = Nothing
                           ↔ results = JNull ∨ results = JBool false
                             ∨ results = JStr "")
                        ∧ error st' = None
                        ∧ analysisResults st' = results
                    end
                  else
                    Spec.phase st' = Spec.Error
                    ∧ error st' = Some "Analysis failed: Analysis failed"
              end
        end.
Proof.
  split; [done|]. rewrite runAnalysisOn_submitted.
  eexists. split; [reflexivity|].
  destruct (net (analyzeRequest st)) as [o|]; [|done].
  rewrite (runAnalysis_submitted (always o) st Hsubmit).
  split; [done|]. split; [done|].
  assert (∀ st0, isAnalyzing st0 = false → Spec.phase st0 ≠ Spec.Analyzing)
    as Hrest.
  { intros st0 Hflag. unfold Spec.phase. rewrite Hflag.
    by destruct (errorShown st0), (resultsRendered st0). }
  split; [by apply Hrest|].
  destruct o as [message|r].
  - by rewrite (settleAnalysis_thrown _ _ message).
  - destruct (ok r) eqn:Hok.
    + destruct (body r) as [message|results] eqn:Hbody.
      * rewrite (settleAnalysis_thrown _ _ message)
          by (simpl; by rewrite Hok, Hbody).
        done.
      * rewrite (settleAnalysis_returned _ _ results)
          by (simpl; by rewrite Hok, Hbody).
        rewrite phase_returned. unfold resultsView.
        cbn [analysisResults setIsAnalyzing setAnalysisResults].
        repeat split; try done; apply renderResults_nothing.
    + rewrite (settleAnalysis_thrown _ _ "Analysis failed")
        by (simpl; by rewrite Hok).
      done.
Qed.

End StateMachine.

(** ** The theorems at concrete states, and where the claims fail *)

Section Instances.

Lemma canSubmit_readyState : canSubmit readyState.
Proof. split; [discriminate | reflexivity]. Defined.

Lemma canSubmit_analysedState : canSubmit analysedState.
Proof. split; [discriminate | reflexivity]. Defined.

Lemma canSubmit_failedState : canSubmit failedState.
Proof. split; [discriminate | reflexivity]. Defined.

Example contains_examples :
  Spec.contains "Analysis failed: quota exceeded" "quota exceeded" = true
  ∧ Spec.contains "Analysis failed" "failed" = true
  ∧ Spec.contains "Analysis failed" "" = true
  ∧ Spec.contains "Analysis failed" "failure" = false.
Proof. by vm_compute. Qed.

Lemma runAnalysis_non_2xx_witness :
  canSubmit analysedState
  ∧ always (Resolved serverError) (analyzeRequest analysedState)
    = Resolved serverError
  ∧ ok serverError = false
  ∧ ∃ st',
      runAnalysis (always (Resolved serverError)) analysedState
      = (st', [analyzeRequest analysedState])
      ∧ error st' = Some "Analysis failed: Analysis failed"
      ∧ errorShown st' = true
      ∧ isAnalyzing st' = false
      ∧ Spec.phase st' = Spec.Error
      ∧ analysisResults st' = analysisResults analysedState
      ∧ resultsShown st' = resultsShown analysedState
      ∧ files st' = files analysedState
      ∧ analysisSettings st' = analysisSettings analysedState.
Proof.
  split; [exact canSubmit_analysedState|].
  split; [reflexivity|]. split; [reflexivity|].
  apply (runAnalysis_non_2xx (always (Resolved serverError)) analysedState
           canSubmit_analysedState serverError); reflexivity.
Defined.

(** C1 as stated fails: after a 500 response whose body names the
    failure, the error text carries neither that detail nor the status,
    and the results of the earlier analysis are still rendered. *)
Lemma runAnalysis_non_2xx_stale_results :
  let st' := (runAnalysis (always (Resolved serverError)) analysedState).1 in
  ok serverError = false
  ∧ error st' = Some "Analysis failed: Analysis failed"
  ∧ Spec.contains "Analysis failed: Analysis failed" "quota exceeded" = false
  ∧ Spec.contains "Analysis failed: Analysis failed" "Internal Server Error"
    = false
  ∧ Spec.contains "Analysis failed: Analysis failed" "500" = false
  ∧ analysisResults st' = JObj [("summary", JStr "3 findings")]
  ∧ resultsShown st' = true.
Proof. intros st'. by vm_compute. Qed.

Lemma runAnalysis_2xx_json_witness :
  let results := JObj [("summary", JStr "no findings")] in
  let r := {| status := 200; statusText := "OK"; body := inr results |} in
  canSubmit failedState
  ∧ always (Resolved r) (analyzeRequest failedState) = Resolved r
  ∧ ok r = true
  ∧ body r = inr results
  ∧ ∃ st',
      runAnalysis (always (Resolved r)) failedState
      = (st', [analyzeRequest failedState])
      ∧ analysisResults st' = results
      ∧ error st' = None
      ∧ errorShown st' = false
      ∧ isAnalyzing st' = false
      ∧ resultsShown st' = toBoolean results
      ∧ (toBoolean results = true → resultsView st' = Viewer results)
      ∧ (∀ x, results = JNum x → PrimFloat.is_zero x = true →
           resultsView st' = Text "0")
      ∧ (resultsView st' = Nothing
         ↔ results = JNull ∨ results = JBool false ∨ results = JStr "")
      ∧ Spec.phase st'
        = match resultsView st' with
          | Nothing => Spec.Idle
          | _ => Spec.Success
          end
      ∧ files st' = files failedState
      ∧ analysisSettings st' = analysisSettings failedState.
Proof.
  intros results r. split; [exact canSubmit_failedState|].
  split; [reflexivity|]. split; [reflexivity|]. split; [reflexivity|].
  apply (runAnalysis_2xx_json (always (Resolved r)) failedState
           canSubmit_failedState r results); reflexivity.
Defined.

(** C7 as stated fails on a body that is JSON [null]: the response is
    2xx and parses, the earlier error is cleared, and no results are
    rendered. *)
Lemma runAnalysis_2xx_null_not_shown :
  let st' := (runAnalysis (always (Resolved nullBody)) failedState).1 in
  ok nullBody = true
  ∧ body nullBody = inr JNull
  ∧ errorShown failedState = true
  ∧ analysisResults st' = JNull
  ∧ error st' = None
  ∧ resultsShown st' = false
  ∧ resultsView st' = Nothing
  ∧ Spec.phase st' = Spec.Idle.
Proof. intros st'. by vm_compute. Qed.

Lemma runAnalysis_state_machine_witness :
  canSubmit readyState
  ∧ Spec.phase (beginAnalysis readyState) = Spec.Analyzing
  ∧ ∃ st',
      runAnalysisOn (λ _, Some (Rejected "Failed to fetch")) readyState
      = (st', [analyzeRequest readyState])
      ∧ runAnalysis (always (Rejected "Failed to fetch")) readyState
        = (st', [analyzeRequest readyState])
      ∧ isAnalyzing st' = false
      ∧ Spec.phase st' ≠ Spec.Analyzing
      ∧ Spec.phase st' = Spec.Error
      ∧ error st' = Some ("Analysis failed: " +:+ "Failed to fetch").
Proof.
  split; [exact canSubmit_readyState|].
  exact (runAnalysis_state_machine (λ _, Some (Rejected "Failed to fetch"))
           readyState canSubmit_readyState).
Defined.

(** C8 as stated fails on the same body: from the idle state the submit
    goes to analyzing, and the 2xx response with body [null] brings the
    controller back to the very state it started from, which is idle
    and not success. *)
Lemma runAnalysis_2xx_null_back_to_idle :
  Spec.phase readyState = Spec.Idle
  ∧ Spec.phase (beginAnalysis readyState) = Spec.Analyzing
  ∧ ok nullBody = true
  ∧ body nullBody = inr JNull
  ∧ runAnalysis (always (Resolved nullBody)) readyState
    = (readyState, [analyzeRequest readyState])
  ∧ Spec.phase (runAnalysis (always (Resolved nullBody)) readyState).1
    ≠ Spec.Success.
Proof. repeat split; try reflexivity. by vm_compute. Qed.

Lemma handleFileUpload_frame_witness :
  let st := setFiles [zreport] initialState in
  (files (handleFileUpload [notes] st) = [zreport]
   ∧ error (handleFileUpload [notes] st)
     = Some "Please select ABAP files (.abap extension)"
   ∧ sameButError st (handleFileUpload [notes] st))
  ∧ files (handleFileUpload [notes; zutil; zreport] st)
    = [zreport; zutil; zreport].
Proof.
  intros st. split.
  - apply (proj1 (handleFileUpload_frame [notes] st)).
    intros file ->%list_elem_of_singleton.
    rewrite <- !endsWith_hasSuffix. vm_compute. intros [?|?]; discriminate.
  - destruct (proj2 (handleFileUpload_frame [notes; zutil; zreport] st))
      as [Hfiles _].
    + exists zutil. split; [by right; left|].
      right. by exists "ZUTIL".
    + exact (Hfiles isAbapFile isAbapFile_hasSuffix).
Defined.

End Instances.


(** ** removeFile and the file list *)

Section FileList.

Lemma filterIndexed_all {A : Type} (keep : A → nat → bool) (i : nat)
    (arr : list A) :
  (∀ x j, (i ≤ j)%nat → keep x j = true) →
  filterIndexed keep i arr = arr.
Proof.
  revert i. induction arr as [|x rest IH]; intros i Hkeep; simpl; [done|].
  rewrite Hkeep by lia. f_equal. apply IH. intros y j Hj. apply Hkeep. lia.
Qed.

Lemma filterIndexed_drop_one {A : Type} (target i : nat) (arr : list A) :
  (i ≤ target)%nat →
  filterIndexed (λ _ j, negb (j =? target)%nat) i arr
  = take (target - i) arr ++ drop (S (target - i)) arr.
Proof.
  revert i. induction arr as [|x rest IH]; intros i Hle; simpl.
  - by destruct (target - i)%nat.
  - destruct (Nat.eqb_spec i target) as [->|Hne]; simpl.
    + rewrite Nat.sub_diag. simpl. rewrite drop_0.
      apply filterIndexed_all. intros y j Hj.
      destruct (Nat.eqb_spec j target); [lia | done].
    + replace (target - i)%nat with (S (target - S i)) by lia. simpl.
      f_equal. apply IH. lia.
Qed.

Lemma files_removeFile (index : nat) (st : State) :
  files (removeFile index st)
  = take index (files st) ++ drop (S index) (files st).
Proof.
  unfold removeFile. simpl.
  rewrite (filterIndexed_drop_one index 0) by lia.
  by rewrite Nat.sub_0_r.
Qed.

(** X1: [removeFile] deletes the file at the given position and nothing
    else: the files before it keep their position, the files after it
    move up by one, a position past the end changes nothing, and no other
    state cell is touched. *)
Theorem removeFile_deletes_position (index : nat) (st : State) :
  files (removeFile index st)
  = take index (files st) ++ drop (S index) (files st)
  ∧ (∀ j, files (removeFile index st) !! j
          = if (j <? index)%nat then files st !! j else files st !! S j)
  ∧ List.length (files (removeFile index st))
    = (if (index <? List.length (files st))%nat
       then List.length (files st) - 1
       else List.length (files st))%nat
  ∧ analysisSettings (removeFile index st) = analysisSettings st
  ∧ isAnalyzing (removeFile index st) = isAnalyzing st
  ∧ analysisResults (removeFile index st) = analysisResults st
  ∧ error (removeFile index st) = error st
  ∧ expandedSections (removeFile index st) = expandedSections st
  ∧ configLoaded (removeFile index st) = configLoaded st
  ∧ configError (removeFile index st) = configError st.
Proof.
  pose proof (files_removeFile index st) as Hfiles.
  split; [exact Hfiles|]. rewrite Hfiles, <- delete_take_drop.
  split; [|split; [|by repeat split]].
  - intros j. destruct (Nat.ltb_spec j index).
    + by apply list_lookup_delete_lt.
    + by apply list_lookup_delete_ge.
  - destruct (Nat.ltb_spec index (List.length (files st))) as [Hlt|Hge].
    + rewrite length_delete; [lia|]. by apply lookup_lt_is_Some_2.
    + rewrite delete_take_drop, take_ge, drop_ge by lia.
      by rewrite app_nil_r.
Qed.

Lemma files_handleFileUpload (selectedFiles : list File) (st : State) :
  files (handleFileUpload selectedFiles st)
  = files st ++ abapFiles selectedFiles.
Proof.
  rewrite handleFileUpload_cases.
  destruct (abapFiles selectedFiles); simpl; [by rewrite app_nil_r | done].
Qed.

(** X2: removing the position just past the old list undoes the upload
    of a single matching file: the file list is the one before the
    upload. *)
Theorem removeFile_undoes_upload (file : File) (st : State) :
  isAbapFile file = true →
  files (removeFile (List.length (files st)) (handleFileUpload [file] st))
  = files st.
Proof.
  intros Hfile.
  rewrite files_removeFile, files_handleFileUpload. unfold abapFiles. simpl. rewrite Hfile.
  rewrite take_app_length, drop_app_ge by lia.
  replace (S (List.length (files st)) - List.length (files st))%nat
    with 1%nat by lia.
  simpl. by rewrite app_nil_r.
Qed.

Lemma removeFile_undoes_upload_witness :
  isAbapFile zutil = true
  ∧ files (removeFile (List.length (files readyState))
             (handleFileUpload [zutil] readyState))
    = files readyState.
Proof.
  split; [reflexivity|].
  apply (removeFile_undoes_upload zutil readyState). reflexivity.
Defined.

(** X3: uploading in two batches is uploading their concatenation: the
    file list is the same in every case, and the whole state is the same
    when the second batch has a matching file. *)
Theorem handleFileUpload_batches
    (first second : list File) (st : State) :
  files (handleFileUpload second (handleFileUpload first st))
  = files (handleFileUpload (first ++ second) st)
  ∧ (abapFiles second ≠ [] →
     handleFileUpload second (handleFileUpload first st)
     = handleFileUpload (first ++ second) st).
Proof.
  assert (abapFiles (first ++ second) = abapFiles first ++ abapFiles second)
    as Happ by apply List.filter_app.
  split.
  - rewrite !files_handleFileUpload, Happ. by rewrite app_assoc.
  - intros Hsecond. rewrite !handleFileUpload_cases, Happ.
    destruct (abapFiles second) as [|s2 rest2]; [done|].
    destruct (abapFiles first) as [|s1 rest1]; simpl.
    + unfold setError, setFiles. simpl. done.
    + unfold setError, setFiles. simpl. by rewrite <- app_assoc.
Qed.

Lemma handleFileUpload_batches_witness :
  abapFiles [zutil] ≠ []
  ∧ handleFileUpload [zutil] (handleFileUpload [notes; zreport] initialState)
    = handleFileUpload ([notes; zreport] ++ [zutil]) initialState.
Proof.
  split; [discriminate|].
  apply (proj2 (handleFileUpload_batches [notes; zreport] [zutil]
                  initialState)).
  discriminate.
Defined.

End FileList.

(** ** toggleSection *)

Section ToggleSection.

Lemma includes_setDelete (x y : string) (s : list string) :
  includes y (setDelete x s) = negb (bool_decide (y = x)) && includes y s.
Proof.
  unfold includes, setDelete.
  destruct (decide (y = x)) as [->|Hne].
  - rewrite (bool_decide_eq_true_2 (x = x)) by done. simpl.
    apply bool_decide_eq_false_2. rewrite list_elem_of_filter. by intros [? _].
  - rewrite (bool_decide_eq_false_2 (y = x)) by done. simpl.
    apply bool_decide_ext. rewrite list_elem_of_filter. tauto.
Qed.

Lemma includes_setAdd (x y : string) (s : list string) :
  includes y (setAdd x s) = bool_decide (y = x) || includes y s.
Proof.
  unfold setAdd. destruct (includes x s) eqn:Hx.
  - destruct (decide (y = x)) as [->|Hne].
    + rewrite (bool_decide_eq_true_2 (x = x)) by done. by rewrite Hx.
    + by rewrite (bool_decide_eq_false_2 (y = x)).
  - unfold includes.
    destruct (decide (y = x)) as [->|Hne].
    + rewrite (bool_decide_eq_true_2 (x = x)) by done. simpl.
      apply bool_decide_eq_true_2. rewrite elem_of_app, list_elem_of_singleton.
      by right.
    + rewrite (bool_decide_eq_false_2 (y = x)) by done. simpl.
      apply bool_decide_ext. rewrite elem_of_app, list_elem_of_singleton.
      tauto.
Qed.

Lemma NoDup_setDelete (x : string) (s : list string) :
  NoDup s → NoDup (setDelete x s).
Proof. apply NoDup_filter. Qed.

Lemma NoDup_setAdd (x : string) (s : list string) :
  NoDup s → NoDup (setAdd x s).
Proof.
  intros Hs. unfold setAdd, includes.
  destruct (decide (x ∈ s)) as [Hin|Hout].
  - by rewrite (bool_decide_eq_true_2 _ Hin).
  - rewrite (bool_decide_eq_false_2 _ Hout).
    apply NoDup_app. split; [done|]. split; [|apply NoDup_singleton].
    intros y Hy ->%list_elem_of_singleton. done.
Qed.

Lemma setDelete_setAdd (x : string) (s : list string) :
  x ∉ s → setDelete x (setAdd x s) = s.
Proof.
  intros Hout. unfold setAdd, includes.
  rewrite (bool_decide_eq_false_2 _ Hout). unfold setDelete.
  rewrite filter_app, (filter_cons_False _ x) by tauto.
  rewrite filter_nil, app_nil_r.
  induction s as [|z rest IH]; [done|].
  apply not_elem_of_cons in Hout as [Hne Hrest].
  rewrite filter_cons_True by done. f_equal. by apply IH.
Qed.

Lemma includes_toggleSection (sectionName y : string) (st : State) :
  includes y (expandedSections (toggleSection sectionName st))
  = xorb (bool_decide (y = sectionName)) (includes y (expandedSections st)).
Proof.
  unfold toggleSection. cbn [expandedSections setExpandedSections].
  destruct (includes sectionName (expandedSections st)) eqn:Hin.
  - rewrite includes_setDelete.
    destruct (decide (y = sectionName)) as [->|Hne].
    + rewrite (bool_decide_eq_true_2 (sectionName = sectionName)) by done.
      by rewrite Hin.
    + by rewrite (bool_decide_eq_false_2 (y = sectionName)).
  - rewrite includes_setAdd.
    destruct (decide (y = sectionName)) as [->|Hne].
    + rewrite (bool_decide_eq_true_2 (sectionName = sectionName)) by done.
      by rewrite Hin.
    + by rewrite (bool_decide_eq_false_2 (y = sectionName)).
Qed.

(** X4: [toggleSection] flips whether the named section is expanded and
    changes this for no other section; toggling the same section twice
    gives back every section's original membership; and every other
    state cell is left alone. *)
Theorem toggleSection_flips_exactly (sectionName : string) (st : State) :
  let st1 := toggleSection sectionName st in
  let st2 := toggleSection sectionName st1 in
  (∀ y, includes y (expandedSections st1)
        = xorb (bool_decide (y = sectionName))
               (includes y (expandedSections st)))
  ∧ (∀ y, includes y (expandedSections st2)
          = includes y (expandedSections st))
  ∧ (files st1 = files st
     ∧ analysisSettings st1 = analysisSettings st
     ∧ isAnalyzing st1 = isAnalyzing st
     ∧ analysisResults st1 = analysisResults st
     ∧ error st1 = error st
     ∧ configLoaded st1 = configLoaded st
     ∧ configError st1 = configError st).
Proof.
  intros st1 st2. split; [|split; [|by repeat split]].
  - intros y. apply includes_toggleSection.
  - intros y. unfold st2, st1. rewrite !includes_toggleSection.
    by destruct (bool_decide (y = sectionName)), (includes y _).
Qed.

Lemma NoDup_toggleSection (sectionName : string) (st : State) :
  NoDup (expandedSections st) →
  NoDup (expandedSections (toggleSection sectionName st)).
Proof.
  intros Hset. unfold toggleSection. cbn [expandedSections setExpandedSections].
  destruct (includes sectionName (expandedSections st));
    [by apply NoDup_setDelete | by apply NoDup_setAdd].
Qed.

(** X5: the expanded sections stay a set: when no section is listed
    twice before [toggleSection], none is listed twice after it; and on
    such a set two toggles of a section that was collapsed give back the
    very same list. *)
Theorem toggleSection_keeps_set (sectionName : string) (st : State) :
  NoDup (expandedSections st) →
  NoDup (expandedSections (toggleSection sectionName st))
  ∧ (includes sectionName (expandedSections st) = false →
     expandedSections (toggleSection sectionName
                         (toggleSection sectionName st))
     = expandedSections st).
Proof.
  intros Hset. split.
  - by apply NoDup_toggleSection.
  - intros Hout.
    assert (sectionName ∉ expandedSections st) as Hnotin
      by (by apply bool_decide_eq_false_1 in Hout).
    unfold toggleSection at 1. cbn [expandedSections setExpandedSections].
    rewrite includes_toggleSection, Hout.
    rewrite (bool_decide_eq_true_2 (sectionName = sectionName)) by done.
    simpl. unfold toggleSection. rewrite Hout.
    cbn [expandedSections setExpandedSections].
    by apply setDelete_setAdd.
Qed.

Lemma toggleSection_keeps_set_witness :
  let st := toggleSection "summary" initialState in
  NoDup (expandedSections st)
  ∧ NoDup (expandedSections (toggleSection "details" st))
  ∧ (includes "details" (expandedSections st) = false →
     expandedSections (toggleSection "details" (toggleSection "details" st))
     = expandedSections st).
Proof.
  intros st.
  assert (NoDup (expandedSections st)) as Hset
    by (apply NoDup_singleton).
  split; [exact Hset|].
  exact (toggleSection_keeps_set "details" st Hset).
Defined.

End ToggleSection.

(** ** runAnalysis and the run button *)

Section RunButton.

Variable net : Request → FetchOutcome.

(** [runAnalysis] is [startAnalysis] followed, when the guards let the
    request out, by [settleAnalysis]. *)
Lemma runAnalysis_startAnalysis (st : State) :
  runAnalysis net st
  = if requirementsShown st
    then (startAnalysis st, [])
    else (settleAnalysis (net (analyzeRequest st)) (startAnalysis st),
          [analyzeRequest st]).
Proof.
  unfold runAnalysis, startAnalysis, requirementsShown.
  destruct (List.length (files st) =? 0)%nat; [done|]. simpl.
  by destruct (toBoolean (apiKey (analysisSettings st))).
Qed.

Lemma requirementsShown_true (st : State) :
  requirementsShown st = true
  ↔ files st = [] ∨ toBoolean (apiKey (analysisSettings st)) = false.
Proof.
  unfold requirementsShown. rewrite orb_true_iff, negb_true_iff.
  destruct (files st); simpl; [tauto|]. split; intros [?|?]; auto; done.
Qed.

(** X6: the view and the handler agree.  The requirements box is shown
    exactly in the states in which [runAnalysis] sends nothing; the run
    button is disabled in all of them and while a request is in flight;
    and whenever the button is enabled a click sends exactly one
    request. *)
Theorem run_button_matches_guards (st : State) :
  (requirementsShown st = true ↔ (runAnalysis net st).2 = [])
  ∧ runDisabled st = isAnalyzing st || requirementsShown st
  ∧ (runDisabled st = false →
     (runAnalysis net st).2 = [analyzeRequest st]).
Proof.
  rewrite runAnalysis_startAnalysis. split; [|split].
  - by destruct (requirementsShown st).
  - unfold runDisabled, requirementsShown. by rewrite orb_assoc.
  - unfold runDisabled. fold (requirementsShown st).
    rewrite <- orb_assoc. fold (requirementsShown st).
    intros [_ ->]%orb_false_iff. done.
Qed.

Lemma runAnalysis_sends_nothing (st : State) :
  (runAnalysis net st).2 = []
  ↔ files st = [] ∨ toBoolean (apiKey (analysisSettings st)) = false.
Proof.
  rewrite <- requirementsShown_true, runAnalysis_startAnalysis.
  by destruct (requirementsShown st).
Qed.

(** X7: [runAnalysis] sends at most one request, and none exactly when
    no file is uploaded or the API key is falsy; with no file the
    message is the no-file one whatever the key is, so it takes
    precedence when both are missing. *)
Theorem runAnalysis_refused_iff (st : State) :
  ((runAnalysis net st).2 = []
   ↔ files st = [] ∨ toBoolean (apiKey (analysisSettings st)) = false)
  ∧ (List.length (runAnalysis net st).2 ≤ 1)%nat
  ∧ (files st = [] →
     runAnalysis net st
     = (setError (Some "Please upload at least one ABAP file") st, [])).
Proof.
  split; [|split].
  - apply runAnalysis_sends_nothing.
  - rewrite runAnalysis_startAnalysis.
    destruct (requirementsShown st); simpl; lia.
  - intros Hfiles. unfold runAnalysis. by rewrite Hfiles.
Qed.

(** X8: [runAnalysis] itself never looks at [isAnalyzing]; only the
    button does.  Called again in the state rendered while the first
    request is in flight, it sends the same request once more and ends
    in the same state. *)
Theorem runAnalysis_reentrant (st : State) :
  canSubmit st →
  isAnalyzing (beginAnalysis st) = true
  ∧ runAnalysis net (beginAnalysis st) = runAnalysis net st
  ∧ (runAnalysis net (beginAnalysis st)).2 = [analyzeRequest st].
Proof.
  intros Hsubmit.
  assert (canSubmit (beginAnalysis st)) as Hagain by exact Hsubmit.
  split; [done|].
  rewrite (runAnalysis_submitted net _ Hagain).
  rewrite (runAnalysis_submitted net _ Hsubmit). done.
Qed.

End RunButton.

Section RunButtonInstances.

Lemma run_button_matches_guards_witness :
  runDisabled readyState = false
  ∧ (runAnalysis (always (Resolved nullBody)) readyState).2
    = [analyzeRequest readyState].
Proof.
  split; [reflexivity|].
  apply (proj2 (proj2 (run_button_matches_guards
                         (always (Resolved nullBody)) readyState))).
  reflexivity.
Defined.

Lemma runAnalysis_refused_iff_witness :
  files initialState = []
  ∧ toBoolean (apiKey (analysisSettings initialState)) = false
  ∧ runAnalysis (always (Resolved nullBody)) initialState
    = (setError (Some "Please upload at least one ABAP file") initialState,
       []).
Proof.
  split; [reflexivity|]. split; [reflexivity|].
  apply (proj2 (proj2 (runAnalysis_refused_iff
                         (always (Resolved nullBody)) initialState))).
  reflexivity.
Defined.

Lemma runAnalysis_reentrant_witness :
  canSubmit readyState
  ∧ isAnalyzing (beginAnalysis readyState) = true
  ∧ runAnalysis (always (Resolved nullBody)) (beginAnalysis readyState)
    = runAnalysis (always (Resolved nullBody)) readyState
  ∧ (runAnalysis (always (Resolved nullBody)) (beginAnalysis readyState)).2
    = [analyzeRequest readyState].
Proof.
  split; [exact canSubmit_readyState|].
  exact (runAnalysis_reentrant (always (Resolved nullBody)) readyState
           canSubmit_readyState).
Defined.

End RunButtonInstances.

(** ** The config fetch, end to end *)

Section ConfigEndToEnd.

Import Server.

Lemma fetchConfig_cases (o : FetchOutcome) (st st' : State) :
  fetchConfig o st = Some st' →
  (∃ message, st' = setConfigError (Some message) st)
  ∨ (∃ r config s,
       o = Resolved r ∧ ok r = true ∧ body r = inr config
       ∧ configUpdater config (analysisSettings st) = Some s
       ∧ renders s = true
       ∧ st' = setConfigLoaded true (setAnalysisSettings s st)).
Proof.
  unfold fetchConfig. destruct o as [message|r].
  - intros [= <-]. left. by eexists.
  - destruct (ok r) eqn:Hok; simpl; [|intros [= <-]; left; by eexists].
    destruct (body r) as [message|config] eqn:Hbody;
      [intros [= <-]; left; by eexists|].
    destruct (configUpdater config (analysisSettings st)) as [s|] eqn:Hs;
      [|done].
    cbn [mbind option_bind]. destruct (renders s) eqn:Hrenders; [|done].
    intros [= <-]. right. by exists r, config, s.
Qed.

Lemma toBoolean_or_lit (v : value) (d : json) :
  toBoolean d = true → toBoolean (or_lit v d) = true.
Proof.
  intros Hd. unfold or_lit, or, truthy.
  destruct v as [j|]; [|done]. by destruct (toBoolean j) eqn:Hj.
Qed.

Lemma configUpdater_keeps (config : json) (prev s : Settings) :
  configUpdater config prev = Some s →
  agents s = agents prev
  ∧ outputFormat s = outputFormat prev
  ∧ toBoolean (model s) = true
  ∧ toBoolean (provider s) = true.
Proof.
  unfold configUpdater. destruct config; simpl; try done;
    intros [= <-]; simpl; repeat split; by apply toBoolean_or_lit.
Qed.

(** X9: [fetchConfig] never touches the files, the analysis flag,
    results and error, the expanded sections, or the agents and output
    format the user chose, however the fetch settles. *)
Theorem fetchConfig_frame (o : FetchOutcome) (st st' : State) :
  fetchConfig o st = Some st' → sameButConfig st st'.
Proof.
  intros [[message ->]|(r & config & s & _ & _ & _ & Hs & _ & ->)]%fetchConfig_cases.
  - by repeat split.
  - apply configUpdater_keeps in Hs as (Hagents & Hformat & _).
    by repeat split.
Qed.


(** X11: a config response that arrives after the user has toggled an
    agent or picked an output format does not undo the choice: the
    handlers commute with [fetchConfig]. *)
Theorem fetchConfig_commutes (o : FetchOutcome) (agentId v : string)
    (st : State) :
  fetchConfig o (toggleAgent agentId st)
  = toggleAgent agentId <$> fetchConfig o st
  ∧ fetchConfig o (selectOutputFormat v st)
    = selectOutputFormat v <$> fetchConfig o st.
Proof.
  unfold fetchConfig. destruct o as [message|r]; [done|].
  destruct (ok r); simpl; [|done].
  destruct (body r) as [message|config]; [done|].
  unfold configUpdater.
  destruct config; cbn [getProp mbind option_bind];
    unfold renders; cbn [provider model apiKey];
    try done;
    match goal with
    | |- context [if ?b then _ else _] => by destruct b
    end.
Qed.

Lemma member_config (env : gmap string string) :
  ∃ ms,
    body (get_api_config env) = inr (JObj ms)
    ∧ or_lit (member "apiKey" ms) (JStr "")
      = JStr (default "" (firstNonEmpty [env !! "API_KEY";
                                         env !! "OPENAI_API_KEY";
                                         env !! "ANTHROPIC_API_KEY"]))
    ∧ or_lit (member "apiProvider" ms) (JStr "anthropic")
      = JStr (default "anthropic" (nonEmpty (env !! "API_PROVIDER")))
    ∧ or_lit (member "modelName" ms) (JStr "claude-3-7-sonnet-20250219")
      = JStr (default "claude-3-7-sonnet-20250219"
                (nonEmpty (env !! "MODEL_NAME")))
    ∧ or_lit (member "apiBaseUrl" ms) (JStr "")
      = JStr (default "" (env !! "API_BASE_URL")).
Proof.
  eexists. split; [reflexivity|].
  unfold config_object. rewrite or_env_empty_literal, !or_env_literal.
  unfold or, env_get, firstNonEmpty.
  destruct (env !! "API_KEY") as [[|c1 s1]|];
    destruct (env !! "OPENAI_API_KEY") as [[|c2 s2]|];
    destruct (env !! "ANTHROPIC_API_KEY") as [[|c3 s3]|];
    simpl; repeat split;
    repeat match goal with
           | |- context [env !! ?var] => destruct (env !! var) as [[|? ?]|]
           end;
    reflexivity.
Qed.

Lemma firstNonEmpty_nonempty (vars : list (option string)) (s : string) :
  firstNonEmpty vars = Some s → s ≠ "".
Proof.
  induction vars as [|var rest IH]; simpl; [done|].
  destruct var as [[|c t]|]; simpl; [done| |done].
  by intros [= <-].
Qed.

Lemma firstNonEmpty_keyInEnvironment (env : gmap string string) :
  is_Some (firstNonEmpty [env !! "API_KEY"; env !! "OPENAI_API_KEY";
                          env !! "ANTHROPIC_API_KEY"])
  ↔ keyInEnvironment env.
Proof.
  unfold keyInEnvironment. split.
  - intros [key Hkey]. simpl in Hkey.
    destruct (env !! "API_KEY") as [[|c1 s1]|] eqn:H1; simpl in Hkey;
      [| injection Hkey as <-; exists "API_KEY"; eexists;
         split; [set_solver | done] |];
      (destruct (env !! "OPENAI_API_KEY") as [[|c2 s2]|] eqn:H2;
         simpl in Hkey;
         [| injection Hkey as <-; exists "OPENAI_API_KEY"; eexists;
            split; [set_solver | done] |]);
      (destruct (env !! "ANTHROPIC_API_KEY") as [[|c3 s3]|] eqn:H3;
         simpl in Hkey; [done| |done];
         injection Hkey as <-; exists "ANTHROPIC_API_KEY"; eexists;
         split; [set_solver | done]).
  - intros (var & key & Hvar & Hkey & Hne).
    destruct key as [|c t]; [done|]. simpl.
    repeat (apply elem_of_cons in Hvar as [->|Hvar];
            [rewrite Hkey; simpl;
             repeat match goal with
                    | |- context [nonEmpty ?o] => destruct (nonEmpty o)
                    end; by eexists|]).
    by apply not_elem_of_nil in Hvar.
Qed.

Lemma configUpdater_server (env : gmap string string) (prev : Settings) :
  ∃ config,
    body (get_api_config env) = inr config
    ∧ configUpdater config prev =
      Some {| agents := agents prev;
              model := JStr (default "claude-3-7-sonnet-20250219"
                               (nonEmpty (env !! "MODEL_NAME")));
              outputFormat := outputFormat prev;
              apiKey := JStr (default "" (firstNonEmpty
                          [env !! "API_KEY"; env !! "OPENAI_API_KEY";
                           env !! "ANTHROPIC_API_KEY"]));
              provider :=
                JStr (default "anthropic" (nonEmpty (env !! "API_PROVIDER")));
              apiBaseUrl := JStr (default "" (env !! "API_BASE_URL")) |}.
Proof.
  destruct (member_config env) as (ms & Hbody & Hkey & Hprov & Hmodel & Hbase).
  exists (JObj ms). split; [done|].
  unfold configUpdater. simpl. by rewrite Hkey, Hprov, Hmodel, Hbase.
Qed.

(** X12: the server and the client put together.  For every environment
    the config fetch succeeds and stores strings: the key is the first of
    [API_KEY], [OPENAI_API_KEY], [ANTHROPIC_API_KEY] set to a non-empty
    string, or the empty string; provider and model are their variable
    when non-empty, else the default; the base URL is its variable or
    empty. *)
Theorem fetchConfig_from_server (env : gmap string string) (st : State) :
  fetchConfig (Resolved (get_api_config env)) st =
  Some (setConfigLoaded true (setAnalysisSettings
    {| agents := agents (analysisSettings st);
       model := JStr (default "claude-3-7-sonnet-20250219"
                        (nonEmpty (env !! "MODEL_NAME")));
       outputFormat := outputFormat (analysisSettings st);
       apiKey := JStr (default "" (firstNonEmpty
                   [env !! "API_KEY"; env !! "OPENAI_API_KEY";
                    env !! "ANTHROPIC_API_KEY"]));
       provider := JStr (default "anthropic" (nonEmpty (env !! "API_PROVIDER")));
       apiBaseUrl := JStr (default "" (env !! "API_BASE_URL")) |} st)).
Proof.
  destruct (configUpdater_server env (analysisSettings st))
    as (config & Hbody & Hs).
  unfold fetchConfig.
  replace (ok (get_api_config env)) with true by reflexivity.
  rewrite Hbody. simpl. by rewrite Hs.
Qed.

(** X13: after the config fetch from the server, an API key is
    configured exactly when one of the three key variables is set to a
    non-empty string.  When none is, the badge keeps saying that it is
    waiting although the config has loaded, and whatever files are then
    uploaded, [runAnalysis] sends nothing. *)
Theorem key_configured_iff_in_environment
    (env : gmap string string) (st st' : State) :
  fetchConfig (Resolved (get_api_config env)) st = Some st' →
  configLoaded st' = true
  ∧ (toBoolean (apiKey (analysisSettings st')) = true ↔ keyInEnvironment env)
  ∧ (keyInEnvironment env →
     configBadge st' = "Environment Configuration Loaded")
  ∧ (¬ keyInEnvironment env →
     configBadge st' = "Waiting for Configuration..."
     ∧ ∀ net selectedFiles,
         (runAnalysis net (handleFileUpload selectedFiles st')).2 = []).
Proof.
  destruct (configUpdater_server env (analysisSettings st))
    as (config & Hbody & Hs).
  unfold fetchConfig.
  replace (ok (get_api_config env)) with true by reflexivity.
  rewrite Hbody. cbn [negb]. rewrite Hs. cbn [mbind option_bind].
  rewrite <- firstNonEmpty_keyInEnvironment.
  remember (firstNonEmpty [env !! "API_KEY"; env !! "OPENAI_API_KEY";
                           env !! "ANTHROPIC_API_KEY"]) as found eqn:Hkey.
  symmetry in Hkey. intros [= <-]. unfold configBadge.
  cbn [configLoaded analysisSettings apiKey setConfigLoaded
       setAnalysisSettings].
  destruct found as [key|]; simpl.
  - apply firstNonEmpty_nonempty in Hkey.
    assert (String.eqb key "" = false) as -> by by apply String.eqb_neq.
    simpl. split; [done|]. split; [by split; [eexists|]|].
    split; [done|]. intros Hno. destruct Hno. by eexists.
  - split; [done|]. split; [split; [done | by intros ?%is_Some_None]|].
    split; [by intros ?%is_Some_None|]. intros _. split; [done|].
    intros net selectedFiles.
    apply runAnalysis_sends_nothing. right.
      rewrite handleFileUpload_cases.
      by destruct (abapFiles selectedFiles).
Qed.

End ConfigEndToEnd.

(** ** The masked API key *)

Section ApiKeyText.

Lemma eqb_empty_false (s : string) :
  String.length s ≠ 0%nat → String.eqb s "" = false.
Proof. by destruct s. Qed.

Lemma slice_last_four (hidden tail : string) :
  String.length tail = 4%nat → slice (hidden +:+ tail) (-4) = tail.
Proof.
  intros Htail. unfold slice. rewrite length_app_string, Htail.
  replace (-4 <? 0) with true by reflexivity.
  replace (Z.max (Z.of_nat (String.length hidden + 4) + -4) 0)
    with (Z.of_nat (String.length hidden)) by lia.
  replace (Z.max (Z.of_nat (String.length hidden + 4)
                  - Z.of_nat (String.length hidden)) 0)
    with 4 by lia.
  rewrite Nat2Z.id. change (Z.to_nat 4) with 4%nat.
  rewrite <- Htail. apply substring_after_stem.
Qed.

Lemma slice_short (key : string) :
  (String.length key ≤ 4)%nat → slice key (-4) = key.
Proof.
  intros Hshort. unfold slice.
  replace (-4 <? 0) with true by reflexivity.
  replace (Z.max (Z.of_nat (String.length key) + -4) 0) with 0 by lia.
  replace (Z.max (Z.of_nat (String.length key) - 0) 0)
    with (Z.of_nat (String.length key)) by lia.
  rewrite Nat2Z.id. apply substring_whole.
Qed.

(** X14: the API key row shows eight stars and the last four characters
    of the key, and nothing of what precedes them; a key of at most four
    characters is therefore shown in full after the stars; an empty key
    reads [Not Configured]. *)
Theorem apiKeyText_masks (hidden tail key : string) :
  (String.length tail = 4%nat →
   apiKeyText (hidden +:+ tail) = "********" +:+ tail)
  ∧ (key ≠ "" → (String.length key ≤ 4)%nat →
     apiKeyText key = "********" +:+ key)
  ∧ apiKeyText "" = "Not Configured".
Proof.
  split; [|split; [|done]].
  - intros Htail. unfold apiKeyText.
    rewrite eqb_empty_false by (rewrite length_app_string; lia).
    simpl. by rewrite slice_last_four.
  - intros Hkey Hshort. unfold apiKeyText.
    rewrite eqb_empty_false by (by destruct key).
    simpl. by rewrite slice_short.
Qed.

Lemma apiKeyText_masks_witness :
  String.length "9f3c" = 4%nat
  ∧ apiKeyText ("sk-ant-secret-" +:+ "9f3c") = "********" +:+ "9f3c"
  ∧ "abc" ≠ ""
  ∧ (String.length "abc" ≤ 4)%nat
  ∧ apiKeyText "abc" = "********" +:+ "abc".
Proof.
  split; [reflexivity|].
  split; [apply (proj1 (apiKeyText_masks "sk-ant-secret-" "9f3c" "abc"));
          reflexivity|].
  split; [discriminate|]. split; [simpl; lia|].
  apply (proj1 (proj2 (apiKeyText_masks "sk-ant-secret-" "9f3c" "abc")));
    [discriminate | simpl; lia].
Defined.

End ApiKeyText.

(** ** What holds in every state the component can reach *)

Section Reachable.

Lemma startAnalysis_cases (st : State) :
  (∃ message, message ≠ "" ∧ startAnalysis st = setError (Some message) st)
  ∨ startAnalysis st = beginAnalysis st.
Proof.
  unfold startAnalysis.
  destruct (List.length (files st) =? 0)%nat;
    [left; eexists; split; [|reflexivity]; done|].
  destruct (toBoolean (apiKey (analysisSettings st))); simpl;
    [by right | left; eexists; split; [|reflexivity]; done].
Qed.

Lemma settleAnalysis_cases (o : FetchOutcome) (st : State) :
  (∃ results,
     settleAnalysis o st = setIsAnalyzing false (setAnalysisResults results st))
  ∨ (∃ message,
       settleAnalysis o st
       = setIsAnalyzing false
           (setError (Some ("Analysis failed: " +:+ message)) st)).
Proof.
  unfold settleAnalysis.
  destruct (tryBlock o st) as [message|st'] eqn:Htry.
  - right. by exists message.
  - left. unfold tryBlock in Htry. destruct o as [message|r]; [done|].
    destruct (ok r); simpl in Htry; [|done].
    destruct (body r) as [message|results]; [done|].
    injection Htry as <-. by exists results.
Qed.

(** What one event can do to the cells the invariants speak of. *)
Lemma handle_summary (ev : Event) (st st' : State) :
  handle ev st = Some st' →
  (∀ file, file ∈ files st' → file ∈ files st ∨ isAbapFile file = true)
  ∧ (agents (analysisSettings st') = agents (analysisSettings st)
     ∨ ∃ agentId,
         agentId ∈ map id availableAgents
         ∧ agents (analysisSettings st')
           = agents (toggleAgentUpdater agentId (analysisSettings st)))
  ∧ (expandedSections st' = expandedSections st
     ∨ ∃ sectionName,
         expandedSections st'
         = expandedSections (toggleSection sectionName st))
  ∧ (outputFormat (analysisSettings st') = outputFormat (analysisSettings st)
     ∨ outputFormat (analysisSettings st') ∈ ["json"; "markdown"])
  ∧ ((model (analysisSettings st') = model (analysisSettings st)
      ∧ provider (analysisSettings st') = provider (analysisSettings st))
     ∨ (toBoolean (model (analysisSettings st')) = true
        ∧ toBoolean (provider (analysisSettings st')) = true))
  ∧ (error st' = error st
     ∨ error st' = None
     ∨ ∃ message, message ≠ "" ∧ error st' = Some message).
Proof.
  destruct ev as [o|selectedFiles|index| |agentId|v|sectionName| |o]; simpl.
  - intros [[message ->]|(r & config & s & _ & _ & _ & Hs & _ & ->)]%fetchConfig_cases.
    + repeat split; auto.
    + apply configUpdater_keeps in Hs as (Hagents & Hformat & Hmodel & Hprov).
      repeat split; auto.
  - intros [= <-]. split.
    + intros file. rewrite files_handleFileUpload, elem_of_app.
      intros [Hold|Hnew]; [by left | right].
      unfold abapFiles in Hnew.
      by apply list_elem_of_In, filter_In in Hnew as [_ Hnew].
    + rewrite handleFileUpload_cases.
      destruct (abapFiles selectedFiles); simpl; repeat split; auto.
      right. right. eexists; split; [|reflexivity]. done.
  - intros [= <-]. split; [|repeat split; auto].
    intros file. rewrite files_removeFile, <- delete_take_drop.
    intros Hin%list_elem_of_delete_inv. by left.
  - intros [= <-]. split; [|repeat split; auto].
    intros file Hin. by apply not_elem_of_nil in Hin.
  - case_bool_decide as Havail; [|done]. intros [= <-].
    repeat split; auto. right. by exists agentId.
  - case_bool_decide as Hoption; [|done]. intros [= <-].
    repeat split; auto.
  - intros [= <-]. repeat split; auto. right. by exists sectionName.
  - intros [= <-].
    destruct (startAnalysis_cases st) as [(message & Hne & ->)| ->];
      repeat split; auto.
    right. right. by exists message.
  - intros [= <-].
    destruct (settleAnalysis_cases o st) as [[results ->]|[message ->]];
      repeat split; auto.
    right. right. eexists; split; [|reflexivity]. done.
Qed.

Lemma toggleAgentUpdater_keeps_set (agentId : string) (prev : Settings) :
  agentId ∈ map id availableAgents →
  NoDup (agents prev) ∧ agents prev ⊆ map id availableAgents →
  NoDup (agents (toggleAgentUpdater agentId prev))
  ∧ agents (toggleAgentUpdater agentId prev) ⊆ map id availableAgents.
Proof.
  intros Havail [Hset Hsub]. unfold toggleAgentUpdater, includes. simpl.
  destruct (decide (agentId ∈ agents prev)) as [Hin|Hout].
  - rewrite (bool_decide_eq_true_2 _ Hin). split.
    + by apply NoDup_filter.
    + intros a [_ Ha]%list_elem_of_filter. by apply Hsub.
  - rewrite (bool_decide_eq_false_2 _ Hout). split.
    + apply NoDup_app. split; [done|]. split; [|apply NoDup_singleton].
      intros a Ha ->%list_elem_of_singleton. done.
    + intros a [Ha| ->%list_elem_of_singleton]%elem_of_app;
        [by apply Hsub | done].
Qed.

Lemma reachable_sessionState : reachable sessionState.
Proof.
  eapply (reachable_handle (AgentToggled "security")); [|reflexivity].
  eapply (reachable_handle (FilesSelected [notes; zreport])); [|reflexivity].
  eapply (reachable_handle
            (ConfigSettled (Resolved
               (Server.get_api_config {[ "API_KEY" := "sk-1" ]}))));
    [apply reachable_initial | by vm_compute].
Defined.

Lemma reachable_isAbapFile (st : State) :
  reachable st → ∀ file, file ∈ files st → isAbapFile file = true.
Proof.
  induction 1 as [|ev st st' _ IH Hev]; [by intros file ?%not_elem_of_nil|].
  apply handle_summary in Hev as [Hfiles _].
  intros file [Hold|Hnew]%Hfiles; [by apply IH | done].
Qed.

(** X15: every file the component ever holds has a name ending in
    [.abap] or [.ABAP], whatever is selected, removed or cleared, and in
    whatever order. *)
Theorem reachable_files_abap (st : State) :
  reachable st → filesAreAbap st.
Proof.
  intros Hreach file Hin.
  apply isAbapFile_hasSuffix. by apply (reachable_isAbapFile st).
Qed.

Lemma reachable_files_abap_witness :
  reachable sessionState ∧ filesAreAbap sessionState.
Proof.
  split; [exact reachable_sessionState|].
  exact (reachable_files_abap sessionState reachable_sessionState).
Defined.

(** X16: the selected agents are always distinct members of the six
    available agents, and no expanded section is ever listed twice. *)
Theorem reachable_selections_are_sets (st : State) :
  reachable st →
  NoDup (agents (analysisSettings st))
  ∧ agents (analysisSettings st) ⊆ map id availableAgents
  ∧ (List.length (agents (analysisSettings st)) ≤ 6)%nat
  ∧ NoDup (expandedSections st).
Proof.
  intros Hreach.
  assert ((NoDup (agents (analysisSettings st))
           ∧ agents (analysisSettings st) ⊆ map id availableAgents)
          ∧ NoDup (expandedSections st)) as [[Hset Hsub] Hsections].
  { induction Hreach as [|ev st st' _ [IHagents IHsections] Hev].
    - split; [split|]; [| |constructor];
        apply (bool_decide_unpack _); by vm_compute.
    - apply handle_summary in Hev
        as (_ & [->|(agentId & Havail & ->)] & [->|[sectionName ->]] & _);
        (split; [done || by apply toggleAgentUpdater_keeps_set|]);
        done || by apply NoDup_toggleSection. }
  repeat split; [done..| |done].
  change 6%nat with (List.length (map id availableAgents)).
  apply submseteq_length, NoDup_submseteq; [done|].
  intros a Ha. by apply Hsub.
Qed.

Lemma reachable_selections_are_sets_witness :
  reachable sessionState
  ∧ NoDup (agents (analysisSettings sessionState))
  ∧ agents (analysisSettings sessionState) ⊆ map id availableAgents
  ∧ (List.length (agents (analysisSettings sessionState)) ≤ 6)%nat
  ∧ NoDup (expandedSections sessionState).
Proof.
  split; [exact reachable_sessionState|].
  exact (reachable_selections_are_sets sessionState reachable_sessionState).
Defined.

(** X17: the model and the provider are never falsy (so never empty),
    and the output format is always [json] or [markdown], whatever the
    config response contained. *)
Theorem reachable_settings_valid (st : State) :
  reachable st →
  toBoolean (model (analysisSettings st)) = true
  ∧ toBoolean (provider (analysisSettings st)) = true
  ∧ outputFormat (analysisSettings st) ∈ ["json"; "markdown"].
Proof.
  induction 1 as [|ev st st' _ (IHmodel & IHprov & IHformat) Hev].
  - split; [done|]. split; [done|]. by left.
  - apply handle_summary in Hev
      as (_ & _ & _ & Hformat & Hsettings & _).
    destruct Hsettings as [[-> ->]|[Hmodel Hprov]];
      destruct Hformat as [->|Hformat]; done.
Qed.

Lemma reachable_settings_valid_witness :
  reachable sessionState
  ∧ toBoolean (model (analysisSettings sessionState)) = true
  ∧ toBoolean (provider (analysisSettings sessionState)) = true
  ∧ outputFormat (analysisSettings sessionState) ∈ ["json"; "markdown"].
Proof.
  split; [exact reachable_sessionState|].
  exact (reachable_settings_valid sessionState reachable_sessionState).
Defined.

(** X18: an error that is set is never the empty string, so the error
    box is rendered whenever [error] is not [null]. *)
Theorem reachable_error_is_shown (st : State) :
  reachable st →
  ∀ message, error st = Some message → message ≠ "" ∧ errorShown st = true.
Proof.
  assert (∀ st message, error st = Some message → message ≠ "" →
            message ≠ "" ∧ errorShown st = true) as Hshown.
  { intros st0 message Herr Hne. split; [done|].
    unfold errorShown. rewrite Herr. by destruct message. }
  induction 1 as [|ev st st' _ IH Hev]; [done|].
  intros message Herr.
  apply handle_summary in Hev
    as (_ & _ & _ & _ & _ & [Hsame|[Hnone|(m & Hne & Hsome)]]).
  - apply (Hshown st' message Herr). rewrite Hsame in Herr.
    by apply (IH message).
  - by rewrite Hnone in Herr.
  - rewrite Hsome in Herr. injection Herr as <-. by apply (Hshown st' m).
Qed.

Lemma reachable_error_is_shown_witness :
  let st := startAnalysis initialState in
  reachable st
  ∧ error st = Some "Please upload at least one ABAP file"
  ∧ "Please upload at least one ABAP file" ≠ ""
  ∧ errorShown st = true.
Proof.
  intros st.
  assert (reachable st) as Hreach
    by exact (reachable_handle RunClicked initialState st
                reachable_initial eq_refl).
  split; [exact Hreach|]. split; [reflexivity|].
  exact (reachable_error_is_shown st Hreach
           "Please upload at least one ABAP file" eq_refl).
Defined.

Lemma requestParts_analyzeRequest (st : State) :
  requestFiles (analyzeRequest st) = files st
  ∧ requestSettings (analyzeRequest st) = [settingsJSON (analysisSettings st)].
Proof.
  unfold requestFiles, requestSettings, analyzeRequest. simpl.
  generalize (settingsJSON (analysisSettings st)), (files st).
  intros text uploaded.
  split; induction uploaded as [|file rest IH]; simpl; [done| |done|done].
  by f_equal.
Qed.

Lemma handle_renders (ev : Event) (st st' : State) :
  handle ev st = Some st' →
  renders (analysisSettings st) = true →
  renders (analysisSettings st') = true.
Proof.
  destruct ev as [o|selectedFiles|index| |agentId|v|sectionName| |o]; simpl.
  - by intros [[message ->]|(r & config & s & _ & _ & _ & _ & Hr & ->)]%fetchConfig_cases.
  - intros [= <-]. rewrite handleFileUpload_cases.
    by destruct (abapFiles selectedFiles).
  - by intros [= <-].
  - by intros [= <-].
  - case_bool_decide; [|done]. by intros [= <-].
  - case_bool_decide; [|done]. by intros [= <-].
  - by intros [= <-].
  - intros [= <-].
    by destruct (startAnalysis_cases st) as [(message & _ & ->)| ->].
  - intros [= <-].
    by destruct (settleAnalysis_cases o st) as [[results ->]|[message ->]].
Qed.

Lemma reachable_renders (st : State) :
  reachable st → renders (analysisSettings st) = true.
Proof.
  induction 1 as [|ev st st' _ IH Hev]; [done|].
  by apply (handle_renders ev st st').
Qed.

Lemma toBoolean_serialised_key (key : json) :
  apiKeyRenders key = true →
  toBoolean key = true →
  toBoolean (serialised key) = true.
Proof.
  destruct key as [|b|x|s|items|ms]; simpl; try done.
  by destruct (PrimFloat.is_zero x || PrimFloat.is_nan x).
Qed.

(** X19: every request the component sends goes by POST to the analyze
    URL and carries exactly the uploaded files, at least one and each
    with a name ending in [.abap] or [.ABAP], followed by one settings
    part: the JSON text of the current settings, in which [NaN] and the
    infinities are written as [null], and in which the API key is
    truthy, as it is in the state. *)
Theorem analyze_request_well_formed
    (net : Request → FetchOutcome) (st : State) (req : Request) :
  reachable st →
  req ∈ (runAnalysis net st).2 →
  url req = "http://localhost:5000/api/analyze"
  ∧ method req = "POST"
  ∧ requestFiles req = files st
  ∧ requestFiles req ≠ []
  ∧ (∀ file, file ∈ requestFiles req →
       hasSuffix ".abap" (name file) ∨ hasSuffix ".ABAP" (name file))
  ∧ requestSettings req = [settingsJSON (analysisSettings st)]
  ∧ toBoolean (apiKey (analysisSettings st)) = true
  ∧ ∃ key,
      getProp (settingsJSON (analysisSettings st)) "apiKey" = Some (Some key)
      ∧ key = serialised (apiKey (analysisSettings st))
      ∧ toBoolean key = true.
Proof.
  intros Hreach Hsent.
  destruct (requestParts_analyzeRequest st) as [Hfiles Hsettings].
  unfold runAnalysis in Hsent.
  destruct (files st) as [|file rest] eqn:Hlist;
    [by apply not_elem_of_nil in Hsent|].
  simpl in Hsent.
  destruct (toBoolean (apiKey (analysisSettings st))) eqn:Hkey;
    [|by apply not_elem_of_nil in Hsent].
  simpl in Hsent. apply list_elem_of_singleton in Hsent as ->.
  rewrite Hfiles, Hsettings.
  split; [done|]. split; [done|]. split; [done|]. split; [done|].
  split; [|split; [done|split; [done|]]].
  - intros f Hin. apply isAbapFile_hasSuffix.
    apply (reachable_isAbapFile st Hreach). by rewrite Hlist.
  - eexists. split; [reflexivity|]. split; [reflexivity|].
    apply toBoolean_serialised_key; [|done].
    apply reachable_renders in Hreach. unfold renders in Hreach.
    by apply andb_true_iff in Hreach as [_ Hreach].
Qed.

Lemma analyze_request_well_formed_witness :
  let net := always (Resolved nullBody) in
  let req := analyzeRequest sessionState in
  reachable sessionState
  ∧ req ∈ (runAnalysis net sessionState).2
  ∧ url req = "http://localhost:5000/api/analyze"
  ∧ method req = "POST"
  ∧ requestFiles req = files sessionState
  ∧ requestFiles req ≠ []
  ∧ (∀ file, file ∈ requestFiles req →
       hasSuffix ".abap" (name file) ∨ hasSuffix ".ABAP" (name file))
  ∧ requestSettings req = [settingsJSON (analysisSettings sessionState)]
  ∧ toBoolean (apiKey (analysisSettings sessionState)) = true
  ∧ ∃ key,
      getProp (settingsJSON (analysisSettings sessionState)) "apiKey"
      = Some (Some key)
      ∧ key = serialised (apiKey (analysisSettings sessionState))
      ∧ toBoolean key = true.
Proof.
  intros net req.
  assert (req ∈ (runAnalysis net sessionState).2) as Hsent by left.
  split; [exact reachable_sessionState|]. split; [exact Hsent|].
  exact (analyze_request_well_formed net sessionState req
           reachable_sessionState Hsent).
Defined.

(** A non-finite number stored by the config fetch is sent as [null]:
    the settings part is the text of the settings, not the settings. *)
Example settingsJSON_infinite_model :
  getProp (settingsJSON
             {| agents := []; model := JNum PrimFloat.infinity;
                outputFormat := "json"; apiKey := JStr "sk-1";
                provider := JStr "anthropic"; apiBaseUrl := JStr "" |})
    "model"
  = Some (Some JNull).
Proof. reflexivity. Qed.

End Reachable.

(** ** The config theorems at concrete responses *)

Section ConfigInstances.

Lemma fetchConfig_frame_witness :
  let st' := setConfigError (Some "Failed to load configuration") readyState in
  fetchConfig (Resolved serverError) readyState = Some st'
  ∧ sameButConfig readyState st'.
Proof.
  intros st'. split; [reflexivity|].
  apply (fetchConfig_frame (Resolved serverError) readyState st').
  reflexivity.
Defined.

Lemma key_configured_iff_in_environment_witness :
  let env : gmap string string := {[ "OPENAI_API_KEY" := "sk-2" ]} in
  ∃ st',
    fetchConfig (Resolved (Server.get_api_config env)) initialState = Some st'
    ∧ configLoaded st' = true
    ∧ (toBoolean (apiKey (analysisSettings st')) = true ↔ keyInEnvironment env)
    ∧ (keyInEnvironment env →
       configBadge st' = "Environment Configuration Loaded")
    ∧ (¬ keyInEnvironment env →
       configBadge st' = "Waiting for Configuration..."
       ∧ ∀ net selectedFiles,
           (runAnalysis net (handleFileUpload selectedFiles st')).2 = []).
Proof.
  intros env. eexists. split; [by vm_compute|].
  apply (key_configured_iff_in_environment env initialState).
  by vm_compute.
Defined.

End ConfigInstances.
